(** * The captcha "identity verification" desktop: window engine and
      verification state machine

    A shallow embedding of [src/utils.ts], of the type declarations and of
    the [App] component of [src/index.tsx], followed by the properties of
    the window collection, of the stacking counter and of code submission.

    Conventions of the embedding.
    - JavaScript numbers that the program only uses as integers are [Z].
    - [Math.random()] is a draw from an explicit entropy tape carried by the
      [Browser]; a draw is the 53-bit numerator [k] of the value [k / 2^53]
      in the unit interval, and [Math.floor (Math.random() * n)] is computed
      exactly as [k * n / 2^53] (rounding of the product is not modelled).
    - Strings are Rocq strings.  The input field is read as ASCII text, and
      [trim] and [toUpperCase] are given on ASCII, the range the code
      grammar lives in; the emoji of the catalogs are carried as their
      UTF-8 bytes and never inspected.
    - React state is a record; an event handler is a function of the render
      it closes over (the values it reads as plain variables) that yields an
      update of the current state (the queue of its [setX] calls, functional
      updaters applied to the state they receive).  An event is delivered to
      the handler of the latest render. *)

From Stdlib Require Import ZArith List String Ascii Bool Lia.
Import ListNotations.

Local Open Scope string_scope.
Local Open Scope list_scope.
Local Open Scope Z_scope.

(** ** The browser: entropy, audio requests, viewport *)

Record Browser := mkBrowser {
  entropy : nat -> Z;        (* the tape behind Math.random *)
  drawn : nat;               (* how many draws were consumed *)
  played : list string;      (* sources handed to [new Audio(src).play()] *)
  droning : bool;            (* whether the background drone is playing *)
  innerWidth : Z;            (* window.innerWidth *)
  innerHeight : Z            (* window.innerHeight *)
}.

Definition IO (A : Type) : Type := Browser -> A * Browser.

Definition ret {A} (a : A) : IO A := fun b => (a, b).

Definition bind {A B} (m : IO A) (k : A -> IO B) : IO B :=
  fun b => let (a, b') := m b in k a b'.

Declare Scope io_scope.
Delimit Scope io_scope with io.
Notation "x <- m ;; k" := (bind m (fun x => k))
  (at level 61, m at next level, right associativity) : io_scope.
Notation "m ;;; k" := (bind m (fun _ => k))
  (at level 61, right associativity) : io_scope.
Local Open Scope io_scope.

Fixpoint mapM {A B} (f : A -> IO B) (l : list A) : IO (list B) :=
  match l with
  | [] => ret []
  | a :: l' => b <- f a ;; bs <- mapM f l' ;; ret (b :: bs)
  end.

(** ** JavaScript built-ins used by the program *)

Module JS.

Definition two53 : Z := 2 ^ 53.

(** [Math.random()]: the numerator of the next draw, in [0, 2^53). *)
Definition Math_random : IO Z :=
  fun b =>
    (entropy b (drawn b) mod two53,
     mkBrowser (entropy b) (S (drawn b)) (played b) (droning b)
               (innerWidth b) (innerHeight b)).

(** [Math.floor(r * n)] for a draw of numerator [k]. *)
Definition floor_scaled (k n : Z) : Z := (k * n) / two53.

(** [r < 0.3] for a draw of numerator [k]. *)
Definition below_3_tenths (k : Z) : bool := 10 * k <? 3 * two53.

(** Truthiness of a string: the empty string is falsy. *)
Definition truthy (s : string) : bool :=
  match s with EmptyString => false | _ => true end.

(** [s.substring(start, end)] for non-negative integer arguments; [None]
    as [end] is the one-argument form. *)
Definition substring (s : string) (start : nat) (end_ : option nat) : string :=
  let len := String.length s in
  let a := Nat.min start len in
  let b := match end_ with Some e => Nat.min e len | None => len end in
  String.substring (Nat.min a b) (Nat.max a b - Nat.min a b) s.

(** White space removed by [trim], in the ASCII range: TAB, LF, VT, FF,
    CR and SPACE. *)
Definition isWhiteSpace (c : ascii) : bool :=
  let n := nat_of_ascii c in
  ((9 <=? n)%nat && (n <=? 13)%nat) || (n =? 32)%nat.

Fixpoint trimStart (s : string) : string :=
  match s with
  | EmptyString => EmptyString
  | String c s' => if isWhiteSpace c then trimStart s' else s
  end.

Fixpoint trimEnd (s : string) : string :=
  match s with
  | EmptyString => EmptyString
  | String c s' =>
      match trimEnd s' with
      | EmptyString => if isWhiteSpace c then EmptyString else String c EmptyString
      | t => String c t
      end
  end.

Definition trim (s : string) : string := trimStart (trimEnd s).

Definition upper (c : ascii) : ascii :=
  let n := nat_of_ascii c in
  if ((97 <=? n)%nat && (n <=? 122)%nat)%bool then ascii_of_nat (n - 32) else c.

Fixpoint toUpperCase (s : string) : string :=
  match s with
  | EmptyString => EmptyString
  | String c s' => String (upper c) (toUpperCase s')
  end.

(** [arr.includes(s)] on an array of strings. *)
Definition includes (arr : list string) (s : string) : bool :=
  existsb (String.eqb s) arr.

(** Property lookup [obj[key]] in an object literal given as its list of
    own properties.  Keys that name members of [Object.prototype] are not
    modelled; the program looks up the empty string and the ids cut out of
    a crash code only. *)
Fixpoint prop {V} (obj : list (string * V)) (key : string) : option V :=
  match obj with
  | [] => None
  | (k, v) :: obj' => if String.eqb k key then Some v else prop obj' key
  end.

(** The fractional digits of [k / 2^53] in base 36, at most [n] of them,
    stopping when the fraction is exhausted: what
    [r.toString(36).substring(2, 2 + n)] keeps of a draw, taking the digits
    of the exact expansion. *)
Definition digit36 (d : Z) : ascii :=
  if d <? 10 then ascii_of_nat (48 + Z.to_nat d) else ascii_of_nat (87 + Z.to_nat d).

Fixpoint fraction36 (n : nat) (k : Z) : string :=
  match n with
  | O => EmptyString
  | S n' =>
      if k =? 0 then EmptyString
      else String (digit36 (36 * k / two53)) (fraction36 n' (36 * k mod two53))
  end.

End JS.

(** ** utils.ts *)

Definition generateId : IO string :=
  r <- JS.Math_random ;; ret (JS.fraction36 7 r).

Definition randomInt (min max : Z) : IO Z :=
  r <- JS.Math_random ;; ret (JS.floor_scaled r (max - min + 1) + min).

(** [arr[Math.floor(Math.random() * arr.length)]]; [undefined] is what an
    index outside the array reads. *)
Definition randomItem {T} (undefined : T) (arr : list T) : IO T :=
  r <- JS.Math_random ;;
  ret (nth (Z.to_nat (JS.floor_scaled r (Z.of_nat (List.length arr)))) arr undefined).

Definition newline : string := String (ascii_of_nat 10) EmptyString.

Definition snippets : list string :=
  [ "0x4F3A void main() {";
    "  system.failure(0x00);";
    "  if (human) break;";
    "  // MEMORY LEAK DETECTED";
    "  while(true) { spawn(); }";
    "  <buffer_overflow>";
    "  segmentation fault (core dumped)";
    "  00101010 11001010";
    "  ERROR: CAPTCHA_FAILED";
    "  retrieving: chihuahua.jpg";
    "  analyzing texture...";
    "  geometry.collision(true);" ].

(** The [for] loop of [generateRandomCode], [n] iterations left, [code]
    accumulated so far. *)
Fixpoint generateRandomCode_loop (n : nat) (code : string) : IO string :=
  match n with
  | O => ret code
  | S n' =>
      s <- randomItem "undefined" snippets ;;
      generateRandomCode_loop n' (code ++ (s ++ newline))%string
  end.

Definition generateRandomCode (lines : nat) : IO string :=
  generateRandomCode_loop lines "".

Definition ASCII_CHARS : list string :=
  ["+"; "-"; "="; ":"; "."; "*"; "#"; "@"; "%"].

(** ** types.ts *)

Module Types.

Inductive WindowType := IMAGE | TEXT | CODE | CAPTCHA | ERROR.

(** The [content: any] field, by the shapes the program stores in it. *)
Inductive Content :=
| Str (s : string)
| ImageInfo (emoji : string) (bgImage : option string) (color1 color2 : string)
| CaptchaInfo (bgImage : option string) (emojis : list string)
| Undefined.

Record WindowData := mkWindow {
  id : string;
  type : WindowType;
  x : Z;
  y : Z;
  width : Z;
  height : Z;
  zIndex : Z;
  title : string;
  content : Content;
  rotation : Z
}.

Definition WindowType_eqb (a b : WindowType) : bool :=
  match a, b with
  | IMAGE, IMAGE | TEXT, TEXT | CODE, CODE | CAPTCHA, CAPTCHA | ERROR, ERROR => true
  | _, _ => false
  end.

End Types.

Import Types(WindowType, IMAGE, TEXT, CODE, CAPTCHA, ERROR, Content, Str,
             ImageInfo, CaptchaInfo, Undefined, WindowData, mkWindow).

(** ** index.tsx: constants and catalogs *)

Definition genericErrors : list string :=
  ["/error_1.mp3"; "/error_2.mp3"; "/error_3.mp3"].

Definition MAX_WINDOWS : nat := 40.

Definition SUCCESS_CODES : list string :=
  ["A1B1"; "A2B2"; "A3B3"; "A4B4"; "A5B3"; "A6B1"; "A6B2"; "A6B3"].

Definition TASK_MAP : list (string * string) :=
  [ ("A1", "Seleziona tutti gli organismi viventi :");
    ("A2", "Seleziona tutti gli oggetti che possono essere utilizzati per la navigazione :");
    ("A3", "Seleziona tutti gli oggetti che svolgono funzioni di pubblica sicurezza :");
    ("A4", "Seleziona gli oggetti che assomigliano a volti umani :");
    ("A5", "Seleziona tutti gli oggetti contenenti elementi rossi :");
    ("A6", "Seleziona oggetti appartenenti al mondo reale:") ].

Record Visual := mkVisual { img : string; emojis : list string; sound : string }.

Definition VISUAL_MAP : list (string * Visual) :=
  [ ("B1", mkVisual "B1.jpg" ["🐶"; "🧁"; "🍪"; "🐩"] "/bark.mp3");
    ("B2", mkVisual "B2.jpg" ["🚦"; "🛑"; "🚲"; "🛣️"] "/honk.mp3");
    ("B3", mkVisual "B3.jpg" ["🧯"; "🚒"; "🔥"; "💦"] "/siren.mp3");
    ("B4", mkVisual "B4.jpg" ["👁️"; "👄"; "🤡"; "👺"] "/glitch_voice.mp3") ].

(** ** index.tsx: the window factory *)

(** [new Audio(src).play()]; a failure to play is swallowed by the code. *)
Definition playSound (src : string) : IO unit :=
  fun b =>
    (tt, mkBrowser (entropy b) (drawn b) (played b ++ [src]) (droning b)
                   (innerWidth b) (innerHeight b)).

Definition window_innerWidth : IO Z := fun b => (innerWidth b, b).
Definition window_innerHeight : IO Z := fun b => (innerHeight b, b).

(** An optional string argument that is present and not empty. *)
Definition given (a : option string) : bool :=
  match a with Some s => JS.truthy s | None => false end.

Definition text_of (a : option string) : string :=
  match a with Some s => s | None => "undefined" end.

Definition fallbackEmojis : list string := ["⚠️"; "❌"; "🚫"].

(** [createRandomWindow(zIndex, x, y, taskId, visualId)].  The draws are
    consumed in the order in which the source evaluates them.  A [type]
    read outside the four-element array would take the last branch of the
    chain, as [ERROR] does. *)
Definition createRandomWindow (zIndex : Z) (x y : option Z)
    (taskId visualId : option string) : IO WindowData :=
  e <- randomItem "undefined" genericErrors ;;
  playSound e ;;;
  let visualData : option Visual :=
    if given visualId then JS.prop VISUAL_MAP (text_of visualId) else None in
  r <- JS.Math_random ;;
  (if JS.below_3_tenths r
   then match visualData with
        | Some v => if JS.truthy (sound v) then playSound (sound v) else ret tt
        | None => ret tt
        end
   else ret tt) ;;;
  let types := [IMAGE; TEXT; CODE; CAPTCHA] in
  type <- randomItem ERROR types ;;
  width <- (if Types.WindowType_eqb type CAPTCHA then ret 300 else randomInt 200 400) ;;
  height <- (if Types.WindowType_eqb type CAPTCHA then ret 320 else randomInt 150 300) ;;
  let taskText : string :=
    match (if given taskId then JS.prop TASK_MAP (text_of taskId) else None) with
    | Some t => if JS.truthy t then t else "SYSTEM FAILURE"
    | None => "SYSTEM FAILURE"
    end in
  let emojiList := match visualData with Some v => emojis v | None => fallbackEmojis end in
  let bgImg := match visualData with Some v => Some (img v) | None => None end in
  ct <- match type with
        | TEXT =>
            ret (Str taskText,
                 if given taskId then ("Task: " ++ text_of taskId)%string else "Warning")
        | CODE =>
            code <- generateRandomCode 20 ;; ret (Str code, "Terminal.exe")
        | IMAGE =>
            emoji <- randomItem "undefined" emojiList ;;
            ret (ImageInfo emoji bgImg "#ff9a9e" "#fecfef",
                 if given visualId
                 then match visualData with Some v => img v | None => "undefined" end
                 else "image.jpg")
        | CAPTCHA =>
            ret (CaptchaInfo bgImg emojiList,
                 (JS.substring taskText 0 (Some 25%nat) ++ "...")%string)
        | ERROR => ret (Undefined, "System Alert")
        end ;;
  let (content, title) := ct : Content * string in
  iw <- window_innerWidth ;;
  let safeWidth := Z.min width (iw - 40) in
  posX <- match x with
          | Some v => ret v
          | None => iw' <- window_innerWidth ;;
                    randomInt 10 (Z.max 10 (iw' - safeWidth - 20))
          end ;;
  posY <- match y with
          | Some v => ret v
          | None => ih <- window_innerHeight ;;
                    randomInt 60 (Z.max 60 (ih - height - 60))
          end ;;
  id <- generateId ;;
  rotation <- randomInt (-3) 3 ;;
  ret (mkWindow id type posX posY safeWidth height zIndex title content rotation).

(** ** index.tsx: the state of [App] *)

Inductive Mode := intro | verified | crash.

Record State := mkState {
  mode : Mode;
  inputCode : string;
  errorMsg : string;
  windows : list WindowData;
  zCounter : Z;
  mousePos : Z * Z;
  probability : Z;
  crashTask : string;
  crashVisual : string
}.

(** The arguments of the [useState] calls. *)
Definition initialState : State :=
  mkState intro "" "" [] 100 (0, 0) 0 "" "".

(** A queued state update: it receives the current state. *)
Definition Update : Type := State -> IO State.

Definition skip : Update := fun s => ret s.

Definition andThen (u v : Update) : Update := fun s => s' <- u s ;; v s'.
Notation "u >> v" := (andThen u v) (at level 62, left associativity) : io_scope.

Definition setMode (m : Mode) : Update := fun s =>
  ret (mkState m (inputCode s) (errorMsg s) (windows s) (zCounter s)
               (mousePos s) (probability s) (crashTask s) (crashVisual s)).

Definition setInputCode (v : string) : Update := fun s =>
  ret (mkState (mode s) v (errorMsg s) (windows s) (zCounter s)
               (mousePos s) (probability s) (crashTask s) (crashVisual s)).

Definition setErrorMsg (v : string) : Update := fun s =>
  ret (mkState (mode s) (inputCode s) v (windows s) (zCounter s)
               (mousePos s) (probability s) (crashTask s) (crashVisual s)).

(** [setWindows(prev => ...)]; the updater may run the window factory. *)
Definition setWindows (f : list WindowData -> IO (list WindowData)) : Update := fun s =>
  ws <- f (windows s) ;;
  ret (mkState (mode s) (inputCode s) (errorMsg s) ws (zCounter s)
               (mousePos s) (probability s) (crashTask s) (crashVisual s)).

(** [setZCounter(z => ...)]; a plain value is the constant updater. *)
Definition setZCounter (f : Z -> Z) : Update := fun s =>
  ret (mkState (mode s) (inputCode s) (errorMsg s) (windows s) (f (zCounter s))
               (mousePos s) (probability s) (crashTask s) (crashVisual s)).

Definition setMousePos (p : Z * Z) : Update := fun s =>
  ret (mkState (mode s) (inputCode s) (errorMsg s) (windows s) (zCounter s)
               p (probability s) (crashTask s) (crashVisual s)).

Definition setProbability (f : IO Z) : Update := fun s =>
  p <- f ;;
  ret (mkState (mode s) (inputCode s) (errorMsg s) (windows s) (zCounter s)
               (mousePos s) p (crashTask s) (crashVisual s)).

Definition setCrashTask (v : string) : Update := fun s =>
  ret (mkState (mode s) (inputCode s) (errorMsg s) (windows s) (zCounter s)
               (mousePos s) (probability s) v (crashVisual s)).

Definition setCrashVisual (v : string) : Update := fun s =>
  ret (mkState (mode s) (inputCode s) (errorMsg s) (windows s) (zCounter s)
               (mousePos s) (probability s) (crashTask s) v).

(** ** index.tsx: the handlers of [App]

    Every handler takes the render [r] whose closure it is: [windows],
    [zCounter], [inputCode], [errorMsg], [crashTask] and [crashVisual] read
    as plain variables are read from [r]; the argument of a functional
    updater is the state at the time the update is applied. *)

(** [/^A[1-6]B[1-4]$/.test(code)] *)
Definition crashRegex_test (code : string) : bool :=
  match code with
  | String a (String t (String b (String v EmptyString))) =>
      Ascii.eqb a "A"
      && ((49 <=? nat_of_ascii t)%nat && (nat_of_ascii t <=? 54)%nat)
      && Ascii.eqb b "B"
      && ((49 <=? nat_of_ascii v)%nat && (nat_of_ascii v <=? 52)%nat)
  | _ => false
  end.

(** [bgDrone.play()] and [bgDrone.pause()] *)
Definition bgDrone_set (on : bool) : IO unit :=
  fun b =>
    (tt, mkBrowser (entropy b) (drawn b) (played b) on (innerWidth b) (innerHeight b)).

(** The callback of the crash loop's [setInterval]; the effect installs it
    only in crash mode. *)
Definition spawnInterval (r : State) : Update :=
  match mode r with
  | crash =>
      setWindows (fun prev =>
        if (MAX_WINDOWS <=? List.length prev)%nat then ret prev
        else w <- createRandomWindow (zCounter r) None None
                    (Some (crashTask r)) (Some (crashVisual r)) ;;
             ret (prev ++ [w]))
      >> setZCounter (fun z => z + 1)
  | _ => skip
  end.

Definition handleInputSubmit (r : State) : Update :=
  let code := JS.toUpperCase (JS.trim (inputCode r)) in
  if negb (JS.truthy code) then setErrorMsg "ERROR: INPUT REQUIRED"
  else if JS.includes SUCCESS_CODES code then setMode verified
  else if crashRegex_test code then
    let taskId := JS.substring code 0 (Some 2%nat) in
    let visualId := JS.substring code 2 None in
    setCrashTask taskId
    >> setCrashVisual visualId
    >> setMode crash
    >> (fun s => bgDrone_set true ;;; ret s)
    >> (fun s =>
          ws <- mapM (fun i => createRandomWindow (100 + i) None None
                                 (Some taskId) (Some visualId))
                     [0; 1; 2; 3; 4] ;;
          setWindows (fun _ => ret ws) s)
    >> setZCounter (fun _ => 105)
  else setErrorMsg "ERROR: INVALID CODE".

(** [window.location.reload()]: the page, hence the state, starts over. *)
Definition handleRestart (r : State) : Update :=
  fun _ => bgDrone_set false ;;; ret initialState.

Definition closeWindow (r : State) (id : string) (x y : Z) : Update :=
  setWindows (fun prev =>
    ret (filter (fun w => negb (String.eqb (Types.id w) id)) prev))
  >> (if (List.length (windows r) <? MAX_WINDOWS)%nat then
        let newZ := zCounter r + 2 in
        setZCounter (fun _ => newZ)
        >> setWindows (fun prev =>
             w1 <- createRandomWindow (newZ - 1) (Some (x - 20)) (Some (y - 20))
                     (Some (crashTask r)) (Some (crashVisual r)) ;;
             w2 <- createRandomWindow newZ (Some (x + 20)) (Some (y + 20))
                     (Some (crashTask r)) (Some (crashVisual r)) ;;
             ret (prev ++ [w1; w2]))
      else skip).

(** [{ ...w, zIndex: z }] *)
Definition with_zIndex (z : Z) (w : WindowData) : WindowData :=
  mkWindow (Types.id w) (Types.type w) (Types.x w) (Types.y w) (Types.width w)
           (Types.height w) z (Types.title w) (Types.content w) (Types.rotation w).

(** [{ ...w, x: x, y: y }] *)
Definition with_position (x y : Z) (w : WindowData) : WindowData :=
  mkWindow (Types.id w) (Types.type w) x y (Types.width w)
           (Types.height w) (Types.zIndex w) (Types.title w) (Types.content w)
           (Types.rotation w).

Definition focusWindow (r : State) (id : string) : Update :=
  setZCounter (fun z => z + 1)
  >> setWindows (fun prev =>
       ret (map (fun w => if String.eqb (Types.id w) id
                          then with_zIndex (zCounter r + 1) w else w) prev)).

Definition dragWindow (r : State) (id : string) (dx dy : Z) : Update :=
  setWindows (fun prev =>
    ret (map (fun w => if String.eqb (Types.id w) id
                       then with_position (Types.x w + dx) (Types.y w + dy) w
                       else w) prev)).

(** The [onChange] of the input field. *)
Definition handleChange (r : State) (value : string) : Update :=
  setInputCode value
  >> (if JS.truthy (errorMsg r) then setErrorMsg "" else skip).

(** The surveillance loop. *)
Definition handleMouseMove (r : State) (clientX clientY : Z) : Update :=
  setMousePos (clientX, clientY).

Definition probabilityInterval (r : State) : Update :=
  setProbability (k <- JS.Math_random ;; ret (JS.floor_scaled k 100)).

(** ** Events *)

Inductive Event :=
| Change (value : string)
| Submit
| Restart
| Tick
| Close (id : string) (x y : Z)
| Focus (id : string)
| Drag (id : string) (dx dy : Z)
| MouseMove (clientX clientY : Z)
| ProbabilityTick.

Definition handler (r : State) (e : Event) : Update :=
  match e with
  | Change v => handleChange r v
  | Submit => handleInputSubmit r
  | Restart => handleRestart r
  | Tick => spawnInterval r
  | Close id x y => closeWindow r id x y
  | Focus id => focusWindow r id
  | Drag id dx dy => dragWindow r id dx dy
  | MouseMove cx cy => handleMouseMove r cx cy
  | ProbabilityTick => probabilityInterval r
  end.

(** An event reaches the handler of the latest render, and the updates it
    queues are applied to the state of that render. *)
Definition deliver (e : Event) (s : State) : IO State := handler s e s.

Fixpoint run (es : list Event) (s : State) : IO State :=
  match es with
  | [] => ret s
  | e :: es' => s' <- deliver e s ;; run es' s'
  end.

(** The states after each event of [es], in order. *)
Fixpoint trace (es : list Event) (s : State) (b : Browser) : list State :=
  match es with
  | [] => []
  | e :: es' => let (s', b') := deliver e s b in s' :: trace es' s' b'
  end.

Definition has_id (id : string) (ws : list WindowData) : bool :=
  existsb (fun w => String.eqb (Types.id w) id) ws.

(** What the rendered page can deliver: the form exists in intro mode, the
    restart buttons outside it, and in crash mode every window of the
    collection offers its own id to [onFocus] and [onDrag] and its own id
    and position to [onClose]; the spawn timer runs in crash mode. *)
Definition rendered (s : State) (e : Event) : bool :=
  match e with
  | Change _ | Submit =>
      match mode s with intro => true | _ => false end
  | Restart =>
      match mode s with intro => false | _ => true end
  | Tick =>
      match mode s with crash => true | _ => false end
  | Close id x y =>
      match mode s with
      | crash => existsb (fun w => String.eqb (Types.id w) id
                                   && (Types.x w =? x) && (Types.y w =? y)) (windows s)
      | _ => false
      end
  | Focus id | Drag id _ _ =>
      match mode s with crash => has_id id (windows s) | _ => false end
  | MouseMove _ _ | ProbabilityTick => true
  end.


(** States the page can be in: from the initial state, by events the
    rendered page delivers. *)
Inductive Reachable : State -> Browser -> Prop :=
| Reachable_start b : Reachable initialState b
| Reachable_step s b e :
    Reachable s b -> rendered s e = true ->
    Reachable (fst (deliver e s b)) (snd (deliver e s b)).

(** ** Vocabulary of the properties *)

(** The code that [handleInputSubmit] classifies. *)
Definition normalize (input : string) : string := JS.toUpperCase (JS.trim input).




(** No window is stacked above the counter. *)
Definition z_bounded (s : State) : Prop :=
  Forall (fun w => Types.zIndex w <= zCounter s) (windows s).

Fixpoint all_whitespace (s : string) : bool :=
  match s with
  | EmptyString => true
  | String c s' => JS.isWhiteSpace c && all_whitespace s'
  end.



(** Lines joined by line breaks, as [lines.join("\n")] would. *)
Definition newline_joined (lines : list string) : string :=
  String.concat newline lines.

Fixpoint lastChar (s : string) : option ascii :=
  match s with
  | EmptyString => None
  | String c s' => match lastChar s' with None => Some c | last => last end
  end.


(** A reproducible entropy tape and a browser around it. *)
Definition tape0 (n : nat) : Z :=
  let x := ((Z.of_nat n + 1) * 11400714819323198485) mod 2 ^ 64 in
  let x := (Z.lxor x (Z.shiftr x 30) * 13787848793156543929) mod 2 ^ 64 in
  let x := (Z.lxor x (Z.shiftr x 27) * 10723151780598845931) mod 2 ^ 64 in
  Z.shiftr (Z.lxor x (Z.shiftr x 31)) 11.

Definition browser0 : Browser := mkBrowser tape0 0 [] false 1280 800.

(** The page after the user typed [v] and pressed VERIFY. *)
Definition submitted (v : string) : State * Browser :=
  run [Change v; Submit] initialState browser0.

Definition always {A} (m : IO A) (P : A -> Prop) : Prop :=
  forall b, P (fst (m b)).

(** Lines each followed by a line break, as the loop of
    [generateRandomCode] builds them. *)
Fixpoint newline_terminated (lines : list string) : string :=
  match lines with
  | [] => ""
  | l :: ls => (l ++ newline ++ newline_terminated ls)%string
  end.

Definition without (id : string) (ws : list WindowData) : list WindowData :=
  filter (fun w => negb (String.eqb (Types.id w) id)) ws.

Definition refocused (id : string) (z : Z) (w : WindowData) : WindowData :=
  if String.eqb (Types.id w) id then with_zIndex z w else w.

Definition moved (id : string) (dx dy : Z) (w : WindowData) : WindowData :=
  if String.eqb (Types.id w) id
  then with_position (Types.x w + dx) (Types.y w + dy) w else w.

(** The five windows of the crash burst. *)
Definition burst (taskId visualId : string) : IO (list WindowData) :=
  mapM (fun i => createRandomWindow (100 + i) None None (Some taskId) (Some visualId))
       [0; 1; 2; 3; 4].

(** ** index.tsx: the pointer handlers of [MacWindow]

    The two refs of a window component, and its handlers.  A handler that
    calls a callback of [App] yields the update that the callback queues;
    [r] is the render whose callbacks the component received as props. *)

Record DragRefs := mkDragRefs {
  isDragging : bool;
  startPos : Z * Z
}.

(** [useRef(false)] and [useRef({ x: 0, y: 0 })] *)
Definition initialRefs : DragRefs := mkDragRefs false (0, 0).

Definition handleStart (refs : DragRefs) (r : State) (data : WindowData)
    (clientX clientY : Z) : DragRefs * Update :=
  (mkDragRefs true (clientX, clientY), focusWindow r (Types.id data)).

Definition handleMove (refs : DragRefs) (r : State) (data : WindowData)
    (clientX clientY : Z) : DragRefs * Update :=
  if isDragging refs then
    let dx := clientX - fst (startPos refs) in
    let dy := clientY - snd (startPos refs) in
    (mkDragRefs (isDragging refs) (clientX, clientY),
     dragWindow r (Types.id data) dx dy)
  else (refs, skip).

Definition handleEnd (refs : DragRefs) : DragRefs :=
  mkDragRefs false (startPos refs).

(** A mouse press on the title bar: its [onMouseDown] is [handleStart], and
    the event then bubbles to the [onMouseDown] of the window itself, which
    calls [onFocus] once more; both callbacks belong to the same render. *)
Definition titlebar_onMouseDown (refs : DragRefs) (r : State) (data : WindowData)
    (clientX clientY : Z) : DragRefs * Update :=
  let (refs', u) := handleStart refs r data clientX clientY in
  (refs', u >> focusWindow r (Types.id data)).

(** What the pointer does to one window component. *)
Inductive PointerEvent :=
| Press (clientX clientY : Z)      (* mousedown on the title bar *)
| Move (clientX clientY : Z)       (* mousemove anywhere *)
| Release.                         (* mouseup anywhere *)

Definition pointer (refs : DragRefs) (data : WindowData) (e : PointerEvent)
    (s : State) : IO (DragRefs * State) :=
  match e with
  | Press cx cy =>
      let (refs', u) := titlebar_onMouseDown refs s data cx cy in
      s' <- u s ;; ret (refs', s')
  | Move cx cy =>
      let (refs', u) := handleMove refs s data cx cy in
      s' <- u s ;; ret (refs', s')
  | Release => ret (handleEnd refs, s)
  end.


(** ** index.tsx: the rain of [AsciiBackground] *)

(** [y > 100 + Math.random() * 10000] for a draw of numerator [k]. *)
Definition past_threshold (y k : Z) : bool :=
  100 * JS.two53 + k * 10000 <? y * JS.two53.

(** A call [ctx.fillText(text, x, y)]. *)
Definition Glyph : Type := (string * Z * Z)%type.

(** One pass of the callback of [ypos.forEach] in [draw]: the glyph it
    paints and the new entry of [ypos]. *)
Definition draw_column (ind : nat) (y : Z) : IO (Glyph * Z) :=
  text <- randomItem "undefined" ASCII_CHARS ;;
  let x := Z.of_nat ind * 20 in
  k <- JS.Math_random ;;
  ret ((text, x, y), if past_threshold y k then 0 else y + 20).

(** [ypos.forEach] from column [ind] on. *)
Fixpoint draw_from (ind : nat) (ypos : list Z) : IO (list Glyph * list Z) :=
  match ypos with
  | [] => ret ([], [])
  | y :: rest =>
      gy <- draw_column ind y ;;
      r <- draw_from (S ind) rest ;;
      ret (fst gy :: fst r, snd gy :: snd r)
  end.

(** One frame: the glyphs painted and the updated [ypos]. *)
Definition draw (ypos : list Z) : IO (list Glyph * list Z) := draw_from 0 ypos.

(** [Array(cols).fill(0)] with [cols = Math.floor(width / 20)]. *)
Definition initial_ypos : IO (list Z) :=
  width <- window_innerWidth ;;
  ret (repeat 0 (Z.to_nat (width / 20))).

(** [n] frames in a row. *)
Fixpoint frames (n : nat) (ypos : list Z) : IO (list Z) :=
  match n with
  | O => ret ypos
  | S n' => r <- draw ypos ;; frames n' (snd r)
  end.

(** ** Vocabulary of the further properties *)

Definition is_digit36 (c : ascii) : bool :=
  let n := nat_of_ascii c in
  ((48 <=? n)%nat && (n <=? 57)%nat) || ((97 <=? n)%nat && (n <=? 122)%nat).

Fixpoint all_chars (p : ascii -> bool) (s : string) : bool :=
  match s with
  | EmptyString => true
  | String c s' => p c && all_chars p s'
  end.

(** The task and visual ids cut out of a match of the crash grammar. *)
Definition crash_context (t v : string) : bool :=
  (String.length t =? 2)%nat && crashRegex_test (t ++ v).

(** A window whose title and content come from the catalog entries of the
    context [(t, v)]. *)
Definition dressed (t v : string) (w : WindowData) : Prop :=
  exists task vis,
    JS.prop TASK_MAP t = Some task /\ JS.prop VISUAL_MAP v = Some vis /\
    match Types.type w with
    | TEXT =>
        Types.content w = Str task /\ Types.title w = ("Task: " ++ t)%string
    | CODE => Types.title w = "Terminal.exe"
    | IMAGE =>
        (exists e, In e (emojis vis)
                   /\ Types.content w = ImageInfo e (Some (img vis)) "#ff9a9e" "#fecfef")
        /\ Types.title w = img vis
    | CAPTCHA =>
        Types.content w = CaptchaInfo (Some (img vis)) (emojis vis)
        /\ Types.title w = (JS.substring task 0 (Some 25%nat) ++ "...")%string
    | ERROR => False
    end.

(** What holds of a session state in each mode. *)
Definition session_ok (s : State) : Prop :=
  match mode s with
  | crash =>
      crash_context (crashTask s) (crashVisual s) = true
      /\ JS.includes SUCCESS_CODES (crashTask s ++ crashVisual s) = false
      /\ Forall (dressed (crashTask s) (crashVisual s)) (windows s)
      /\ 105 <= zCounter s
  | _ =>
      crashTask s = "" /\ crashVisual s = "" /\ windows s = [] /\ zCounter s = 100
  end.

(** What one column does in one frame. *)
Definition column_step (y y' : Z) : Prop :=
  (y' = 0 /\ 100 < y) \/ (y' = y + 20 /\ y < 10100).

(** A rain column: a multiple of 20 between 0 and 10120. *)
Definition rain_ok (y : Z) : Prop := 0 <= y <= 10120 /\ (20 | y).

(** [m] leaves the viewport at [iw] by [ih], and its result satisfies [R]. *)
Definition steady {A} (iw ih : Z) (m : IO A) (R : A -> Prop) : Prop :=
  forall b, innerWidth b = iw -> innerHeight b = ih ->
    innerWidth (snd (m b)) = iw /\ innerHeight (snd (m b)) = ih /\ R (fst (m b)).

(** [m] requests no sound. *)
Definition quiet {A} (m : IO A) : Prop :=
  forall b, played (snd (m b)) = played b.

(** ** The effect monad: what holds of every result *)

Lemma bind_unfold {A B} (m : IO A) (k : A -> IO B) b :
  bind m k b = k (fst (m b)) (snd (m b)).
Proof. unfold bind. destruct (m b); reflexivity. Qed.

Lemma always_ret {A} (a : A) (P : A -> Prop) : P a -> always (ret a) P.
Proof. intros H b; exact H. Qed.

Lemma always_bind {A B} (m : IO A) (k : A -> IO B) (P : B -> Prop) :
  (forall a, always (k a) P) -> always (bind m k) P.
Proof. intros H b. rewrite bind_unfold. apply H. Qed.

Lemma always_bind_with {A B} (m : IO A) (k : A -> IO B)
    (Q : A -> Prop) (P : B -> Prop) :
  always m Q -> (forall a, Q a -> always (k a) P) -> always (bind m k) P.
Proof. intros Hm H b. rewrite bind_unfold. apply H, Hm. Qed.


Lemma mapM_map {A B C} (f : A -> IO B) (g : B -> C) (h : A -> C) :
  (forall a, always (f a) (fun r => g r = h a)) ->
  forall l b, map g (fst (mapM f l b)) = map h l.
Proof.
  intros Hf l; induction l as [|a l IH]; intros b; simpl; [reflexivity|].
  rewrite !bind_unfold. simpl. now rewrite IH, Hf.
Qed.

(** ** Proof steps *)

Ltac io_next := apply always_bind; intro; cbv beta zeta.

Ltac run_handler :=
  unfold deliver, handler, andThen, setWindows, setZCounter, setMode,
    setErrorMsg, setInputCode, setCrashTask, setCrashVisual, setMousePos,
    setProbability, skip;
  rewrite ?bind_unfold; unfold ret; cbn [fst snd].

Arguments createRandomWindow : simpl never.

(** ** Strings *)

Lemma append_assoc (a b c : string) : ((a ++ b) ++ c = a ++ (b ++ c))%string.
Proof. induction a; simpl; congruence. Qed.

Lemma append_nil_r (a : string) : (a ++ "")%string = a.
Proof. induction a; simpl; congruence. Qed.


Lemma trimEnd_whitespace (r : string) :
  all_whitespace r = true -> JS.trimEnd r = "".
Proof.
  induction r as [|c r IH]; simpl; intros H; [reflexivity|].
  apply andb_true_iff in H as [Hc Hr]. now rewrite IH, Hc.
Qed.




(** ** The window factory *)

(** The factory stamps the stacking key it is given, and uses a supplied
    position verbatim. *)
Lemma createRandomWindow_placed z x y t v :
  always (createRandomWindow z x y t v)
    (fun w => Types.zIndex w = z
              /\ (forall x0, x = Some x0 -> Types.x w = x0)
              /\ (forall y0, y = Some y0 -> Types.y w = y0)).
Proof.
  unfold createRandomWindow.
  do 8 io_next.
  match goal with p : (Content * string)%type |- _ => destruct p end.
  io_next.
  eapply always_bind_with with (Q := fun p => forall x0, x = Some x0 -> p = x0).
  { destruct x; intros b; simpl; intros x0 E; [congruence|discriminate]. }
  intros posX HX. cbv beta.
  eapply always_bind_with with (Q := fun p => forall y0, y = Some y0 -> p = y0).
  { destruct y; intros b; simpl; intros y0 E; [congruence|discriminate]. }
  intros posY HY. cbv beta.
  do 2 io_next. apply always_ret. simpl. auto.
Qed.

Lemma createRandomWindow_zIndex z x y t v b :
  Types.zIndex (fst (createRandomWindow z x y t v b)) = z.
Proof. apply (createRandomWindow_placed z x y t v b). Qed.

Lemma Math_random_range : always JS.Math_random (fun k => 0 <= k < JS.two53).
Proof.
  intros b. simpl. apply Z.mod_pos_bound. unfold JS.two53. lia.
Qed.

(** A draw scaled to [n] slots lands in one of them. *)
Lemma floor_scaled_range k n :
  0 <= k < JS.two53 -> 0 < n -> 0 <= JS.floor_scaled k n < n.
Proof.
  intros Hk Hn. unfold JS.floor_scaled.
  assert (H53 : 0 < JS.two53) by (unfold JS.two53; lia).
  split.
  - apply Z.div_pos; nia.
  - apply Z.div_lt_upper_bound; nia.
Qed.

Lemma randomItem_In {T} (d : T) (arr : list T) :
  arr <> [] -> always (randomItem d arr) (fun r => In r arr).
Proof.
  intros Hne. unfold randomItem.
  eapply always_bind_with; [apply Math_random_range|].
  intros k Hk. apply always_ret. apply nth_In.
  assert (0 < Z.of_nat (List.length arr)) by (destruct arr; simpl; [congruence|lia]).
  pose proof (floor_scaled_range k _ Hk H). lia.
Qed.

Lemma newline_terminated_joined (lines : list string) :
  lines <> [] ->
  newline_terminated lines = (newline_joined lines ++ newline)%string.
Proof.
  induction lines as [|l ls IH]; [congruence|]. intros _.
  destruct ls as [|l' ls].
  - unfold newline_joined. cbn [String.concat newline_terminated].
    now rewrite append_nil_r.
  - change (newline_joined (l :: l' :: ls))
      with (l ++ newline ++ newline_joined (l' :: ls))%string.
    change (newline_terminated (l :: l' :: ls))
      with (l ++ newline ++ newline_terminated (l' :: ls))%string.
    rewrite IH by discriminate. now rewrite !append_assoc.
Qed.

Lemma generateRandomCode_loop_lines (n : nat) : forall code,
  always (generateRandomCode_loop n code)
    (fun r => exists lines,
       List.length lines = n
       /\ Forall (fun l => In l snippets) lines
       /\ r = (code ++ newline_terminated lines)%string).
Proof.
  induction n as [|n IH]; intros code; simpl.
  - apply always_ret. exists []. repeat split; [constructor|].
    simpl. now rewrite append_nil_r.
  - eapply always_bind_with; [apply randomItem_In; discriminate|].
    intros s Hs b. destruct (IH (code ++ (s ++ newline))%string b)
      as (lines & Hlen & Hall & Heq).
    exists (s :: lines). repeat split; simpl; [lia|now constructor|].
    rewrite Heq. now rewrite !append_assoc.
Qed.

(** The content of a CODE window: twenty lines of the pool, each followed
    by a line break. *)
Lemma createRandomWindow_code z x y t v :
  always (createRandomWindow z x y t v)
    (fun w => Types.type w = CODE ->
       exists lines,
         List.length lines = 20%nat
         /\ Forall (fun l => In l snippets) lines
         /\ Types.content w = Str (newline_terminated lines)).
Proof.
  unfold createRandomWindow.
  do 7 io_next.
  match goal with ty : WindowType |- _ => rename ty into type end.
  eapply always_bind_with with
    (Q := fun ct : Content * string => type = CODE ->
            exists lines, List.length lines = 20%nat
              /\ Forall (fun l => In l snippets) lines
              /\ fst ct = Str (newline_terminated lines)).
  { destruct type; try (intros b E; discriminate E).
    eapply always_bind_with; [apply (generateRandomCode_loop_lines 20 "")|].
    intros code (lines & Hlen & Hall & Heq). apply always_ret. intros _.
    exists lines. simpl in Heq. subst code. auto. }
  intros [content title] Hct. do 5 io_next. apply always_ret. exact Hct.
Qed.

(** ** What each event does to the state *)

Lemma deliver_Close s id x y b :
  deliver (Close id x y) s b =
  if (List.length (windows s) <? MAX_WINDOWS)%nat then
    let r1 := createRandomWindow (zCounter s + 2 - 1) (Some (x - 20)) (Some (y - 20))
                (Some (crashTask s)) (Some (crashVisual s)) b in
    let r2 := createRandomWindow (zCounter s + 2) (Some (x + 20)) (Some (y + 20))
                (Some (crashTask s)) (Some (crashVisual s)) (snd r1) in
    (mkState (mode s) (inputCode s) (errorMsg s)
             (without id (windows s) ++ [fst r1; fst r2]) (zCounter s + 2)
             (mousePos s) (probability s) (crashTask s) (crashVisual s),
     snd r2)
  else
    (mkState (mode s) (inputCode s) (errorMsg s) (without id (windows s))
             (zCounter s) (mousePos s) (probability s) (crashTask s)
             (crashVisual s),
     b).
Proof.
  unfold deliver, handler, closeWindow, without. run_handler.
  destruct (List.length (windows s) <? MAX_WINDOWS)%nat.
  - run_handler. reflexivity.
  - reflexivity.
Qed.

Lemma deliver_Tick s b :
  deliver Tick s b =
  match mode s with
  | crash =>
      if (MAX_WINDOWS <=? List.length (windows s))%nat then
        (mkState (mode s) (inputCode s) (errorMsg s) (windows s) (zCounter s + 1)
                 (mousePos s) (probability s) (crashTask s) (crashVisual s),
         b)
      else
        let r := createRandomWindow (zCounter s) None None
                   (Some (crashTask s)) (Some (crashVisual s)) b in
        (mkState (mode s) (inputCode s) (errorMsg s) (windows s ++ [fst r])
                 (zCounter s + 1) (mousePos s) (probability s) (crashTask s)
                 (crashVisual s),
         snd r)
  | _ => (s, b)
  end.
Proof.
  unfold deliver, handler, spawnInterval.
  destruct (mode s) eqn:Em; try reflexivity.
  run_handler.
  destruct (MAX_WINDOWS <=? List.length (windows s))%nat.
  - cbn [fst snd]. now rewrite Em.
  - run_handler. now rewrite Em.
Qed.

Lemma deliver_Focus s id b :
  deliver (Focus id) s b =
  (mkState (mode s) (inputCode s) (errorMsg s)
           (map (refocused id (zCounter s + 1)) (windows s)) (zCounter s + 1)
           (mousePos s) (probability s) (crashTask s) (crashVisual s),
   b).
Proof. unfold deliver, handler, focusWindow. run_handler. reflexivity. Qed.

Lemma deliver_Drag s id dx dy b :
  deliver (Drag id dx dy) s b =
  (mkState (mode s) (inputCode s) (errorMsg s)
           (map (moved id dx dy) (windows s)) (zCounter s)
           (mousePos s) (probability s) (crashTask s) (crashVisual s),
   b).
Proof. unfold deliver, handler, dragWindow. run_handler. reflexivity. Qed.

Lemma deliver_Submit s b :
  deliver Submit s b =
  let code := normalize (inputCode s) in
  if negb (JS.truthy code) then
    (mkState (mode s) (inputCode s) "ERROR: INPUT REQUIRED" (windows s)
             (zCounter s) (mousePos s) (probability s) (crashTask s)
             (crashVisual s), b)
  else if JS.includes SUCCESS_CODES code then
    (mkState verified (inputCode s) (errorMsg s) (windows s)
             (zCounter s) (mousePos s) (probability s) (crashTask s)
             (crashVisual s), b)
  else if crashRegex_test code then
    let r := burst (JS.substring code 0 (Some 2%nat)) (JS.substring code 2 None)
               (snd (bgDrone_set true b)) in
    (mkState crash (inputCode s) (errorMsg s) (fst r) 105
             (mousePos s) (probability s)
             (JS.substring code 0 (Some 2%nat)) (JS.substring code 2 None),
     snd r)
  else
    (mkState (mode s) (inputCode s) "ERROR: INVALID CODE" (windows s)
             (zCounter s) (mousePos s) (probability s) (crashTask s)
             (crashVisual s), b).
Proof.
  unfold deliver, handler, handleInputSubmit, normalize, burst. cbv zeta.
  destruct (negb _); [reflexivity|].
  destruct (JS.includes _ _); [reflexivity|].
  destruct (crashRegex_test _); [|reflexivity].
  run_handler. reflexivity.
Qed.

Lemma deliver_Change s v b :
  deliver (Change v) s b =
  (mkState (mode s) v (if JS.truthy (errorMsg s) then "" else errorMsg s)
           (windows s) (zCounter s) (mousePos s) (probability s)
           (crashTask s) (crashVisual s), b).
Proof.
  unfold deliver, handler, handleChange. run_handler.
  destruct (JS.truthy (errorMsg s)); reflexivity.
Qed.

Lemma deliver_Restart s b :
  fst (deliver Restart s b) = initialState.
Proof. reflexivity. Qed.

Lemma deliver_MouseMove s cx cy b :
  deliver (MouseMove cx cy) s b =
  (mkState (mode s) (inputCode s) (errorMsg s) (windows s) (zCounter s)
           (cx, cy) (probability s) (crashTask s) (crashVisual s), b).
Proof. reflexivity. Qed.

Lemma deliver_ProbabilityTick s b :
  fst (deliver ProbabilityTick s b) =
  mkState (mode s) (inputCode s) (errorMsg s) (windows s) (zCounter s)
          (mousePos s) (JS.floor_scaled (fst (JS.Math_random b)) 100)
          (crashTask s) (crashVisual s).
Proof. reflexivity. Qed.

(** ** Lists of windows *)



Lemma without_miss id ws : has_id id ws = false -> without id ws = ws.
Proof.
  induction ws as [|w ws IH]; simpl; [reflexivity|].
  destruct (String.eqb (Types.id w) id); simpl; [discriminate|].
  intros H. now rewrite IH.
Qed.

Lemma without_app id ws1 ws2 :
  without id (ws1 ++ ws2) = without id ws1 ++ without id ws2.
Proof. apply filter_app. Qed.

Lemma without_In id w ws : In w (without id ws) -> In w ws /\ Types.id w <> id.
Proof.
  unfold without. rewrite filter_In. intros [Hin Hne]. split; [assumption|].
  intros E. rewrite E, String.eqb_refl in Hne. discriminate.
Qed.

Lemma refocused_miss id z ws :
  has_id id ws = false -> map (refocused id z) ws = ws.
Proof.
  induction ws as [|w ws IH]; simpl; [reflexivity|].
  unfold refocused at 1.
  destruct (String.eqb (Types.id w) id); simpl; [discriminate|].
  intros H. now rewrite IH.
Qed.


Lemma burst_zIndex t v b :
  map Types.zIndex (fst (burst t v b)) = [100; 101; 102; 103; 104].
Proof.
  unfold burst.
  rewrite (mapM_map _ Types.zIndex (fun i => 100 + i)); [reflexivity|].
  intros i b'. apply createRandomWindow_zIndex.
Qed.

(** ** Invariants of delivery *)


Lemma Forall_zIndex_weaken (z z' : Z) ws :
  z <= z' ->
  Forall (fun w => Types.zIndex w <= z) ws ->
  Forall (fun w => Types.zIndex w <= z') ws.
Proof.
  intros Hz H. eapply Forall_impl; [|exact H]. cbv beta. intros w Hw. lia.
Qed.

Lemma Forall_without {P : WindowData -> Prop} id ws :
  Forall P ws -> Forall P (without id ws).
Proof.
  rewrite !Forall_forall. intros H w Hw. apply H. now apply without_In in Hw.
Qed.

(** Delivery never stacks a window above the counter. *)
Lemma deliver_z_bounded e s b :
  z_bounded s -> z_bounded (fst (deliver e s b)).
Proof.
  unfold z_bounded. intros Hz.
  destruct e as [v| | | |id x y|id|id dx dy|cx cy| ].
  - now rewrite deliver_Change.
  - rewrite deliver_Submit. cbv zeta.
    repeat match goal with |- context [if ?c then _ else _] => destruct c end;
      cbn [fst windows zCounter]; try assumption.
    match goal with |- Forall _ (fst (burst ?t ?v ?b')) =>
      pose proof (burst_zIndex t v b') as Hb;
      set (ws := fst (burst t v b')) in * end.
    apply Forall_forall. intros w Hw.
    apply (in_map Types.zIndex) in Hw. rewrite Hb in Hw.
    simpl in Hw. lia.
  - rewrite deliver_Restart. constructor.
  - rewrite deliver_Tick. destruct (mode s); try assumption.
    destruct (MAX_WINDOWS <=? List.length (windows s))%nat;
      cbn [fst windows zCounter].
    + apply Forall_zIndex_weaken with (z := zCounter s); [lia|assumption].
    + apply Forall_app. split.
      * apply Forall_zIndex_weaken with (z := zCounter s); [lia|assumption].
      * constructor; [|constructor]. rewrite createRandomWindow_zIndex. lia.
  - rewrite deliver_Close.
    destruct (List.length (windows s) <? MAX_WINDOWS)%nat;
      cbn [fst windows zCounter].
    + apply Forall_app. split.
      * apply Forall_without.
        apply Forall_zIndex_weaken with (z := zCounter s); [lia|assumption].
      * repeat constructor; rewrite createRandomWindow_zIndex; lia.
    + now apply Forall_without.
  - rewrite deliver_Focus. cbn [fst windows zCounter].
    apply Forall_map. eapply Forall_impl; [|exact Hz]. cbv beta.
    intros w Hw. unfold refocused.
    destruct (String.eqb (Types.id w) id); simpl; lia.
  - rewrite deliver_Drag. cbn [fst windows zCounter].
    apply Forall_map. eapply Forall_impl; [|exact Hz]. cbv beta.
    intros w Hw. unfold moved.
    destruct (String.eqb (Types.id w) id); simpl; lia.
  - now rewrite deliver_MouseMove.
  - now rewrite deliver_ProbabilityTick.
Qed.

Lemma trace_invariant (P : State -> Prop) :
  (forall e s b, P s -> P (fst (deliver e s b))) ->
  forall es s b, P s -> Forall P (trace es s b).
Proof.
  intros Hstep es. induction es as [|e es IH]; intros s b Hs; simpl.
  - constructor.
  - pose proof (Hstep e s b Hs) as Hs'.
    destruct (deliver e s b) as [s' b']. constructor; [exact Hs'|].
    now apply IH.
Qed.

(** ** Codes and their variants *)

Lemma includes_In (arr : list string) (s : string) :
  JS.includes arr s = true <-> In s arr.
Proof.
  unfold JS.includes. rewrite existsb_exists. split.
  - intros (x & Hin & E). apply String.eqb_eq in E. now subst.
  - intros Hin. exists s. split; [assumption|apply String.eqb_refl].
Qed.









Lemma normalize_whitespace v : all_whitespace v = true -> normalize v = "".
Proof.
  intros H. unfold normalize, JS.trim. now rewrite trimEnd_whitespace.
Qed.

Lemma lastChar_append (a b : string) :
  lastChar (a ++ b) = match lastChar b with Some c => Some c | None => lastChar a end.
Proof.
  induction a as [|c a IH]; simpl.
  - now destruct (lastChar b).
  - rewrite IH. destruct (lastChar b); [reflexivity|]. reflexivity.
Qed.

(** Lines of the pool joined by line breaks do not end in a line break. *)
Lemma lastChar_newline_joined (lines : list string) :
  lines <> [] -> Forall (fun l => In l snippets) lines ->
  exists c, lastChar (newline_joined lines) = Some c /\ c <> ascii_of_nat 10.
Proof.
  induction lines as [|l ls IH]; [congruence|]. intros _ Hall.
  inversion Hall as [|? ? Hl Hls]; subst.
  destruct ls as [|l' ls].
  - unfold newline_joined. cbn [String.concat].
    unfold snippets in Hl. simpl in Hl.
    repeat (destruct Hl as [Hl|Hl];
            [subst l; eexists; split; [reflexivity|discriminate]|]).
    contradiction.
  - destruct IH as (c & Hc & Hne); [discriminate|assumption|].
    exists c. split; [|assumption].
    change (newline_joined (l :: l' :: ls))
      with (l ++ newline ++ newline_joined (l' :: ls))%string.
    now rewrite !lastChar_append, Hc.
Qed.

(** ** Reachable states *)


(** Windows exist in crash mode only. *)
Lemma Reachable_windows s b :
  Reachable s b -> mode s <> crash -> windows s = [].
Proof.
  induction 1 as [b|s b e Hr IH He]; intros Hm; [reflexivity|].
  destruct e as [v| | | |id x y|id|id dx dy|cx cy| ]; simpl in He.
  - rewrite deliver_Change in *. cbn [fst windows mode] in *. auto.
  - destruct (mode s) eqn:Em; try discriminate.
    assert (Hw : windows s = []) by (apply IH; discriminate).
    rewrite deliver_Submit in *. cbv zeta in *.
    repeat match goal with |- context [if ?c then _ else _] => destruct c end;
      cbn [fst windows mode] in *; try assumption.
    congruence.
  - reflexivity.
  - destruct (mode s) eqn:Em; try discriminate.
    rewrite deliver_Tick, Em in Hm.
    destruct (MAX_WINDOWS <=? List.length (windows s))%nat;
      cbn [fst mode] in Hm; congruence.
  - destruct (mode s) eqn:Em; try discriminate.
    rewrite deliver_Close in Hm.
    destruct (List.length (windows s) <? MAX_WINDOWS)%nat;
      cbn [fst mode] in Hm; congruence.
  - destruct (mode s) eqn:Em; try discriminate.
    rewrite deliver_Focus in Hm. cbn [fst mode] in Hm. congruence.
  - destruct (mode s) eqn:Em; try discriminate.
    rewrite deliver_Drag in Hm. cbn [fst mode] in Hm. congruence.
  - rewrite deliver_MouseMove in *. cbn [fst windows mode] in *. auto.
  - rewrite deliver_ProbabilityTick in *. cbn [fst windows mode] in *. auto.
Qed.

(** * The properties *)

(** ** C1: the cap on the collection *)




(** ** C2: closing a window of the collection *)

(** C2: when exactly one window carries [id], [close(id, x, y)] below the
    cap removes it and appends two windows, at [(x-20, y-20)] with stacking
    key [zCounter+1] and at [(x+20, y+20)] with [zCounter+2]; the counter
    advances by 2 and the collection grows by one.  At the cap it removes the
    window, appends nothing, and the collection shrinks by one. *)
Theorem C2_close_replaces_one_by_two
    (s : State) (b : Browser) (id : string) (x y : Z)
    (pre post : list WindowData) (w : WindowData) :
  windows s = pre ++ w :: post ->
  Types.id w = id ->
  has_id id pre = false ->
  has_id id post = false ->
  let s' := fst (deliver (Close id x y) s b) in
  ((List.length (windows s) < MAX_WINDOWS)%nat ->
     exists w1 w2,
       windows s' = pre ++ post ++ [w1; w2]
       /\ (Types.x w1, Types.y w1) = (x - 20, y - 20)
       /\ (Types.x w2, Types.y w2) = (x + 20, y + 20)
       /\ Types.zIndex w1 = zCounter s + 1
       /\ Types.zIndex w2 = zCounter s + 2
       /\ zCounter s' = zCounter s + 2
       /\ List.length (windows s') = S (List.length (windows s)))
  /\ (List.length (windows s) = MAX_WINDOWS ->
        windows s' = pre ++ post
        /\ zCounter s' = zCounter s
        /\ S (List.length (windows s')) = List.length (windows s)).
Proof.
  intros Hws Hw Hpre Hpost s'.
  assert (Hwo : without id (windows s) = pre ++ post).
  { rewrite Hws, without_app. simpl. rewrite Hw, String.eqb_refl. simpl.
    fold (without id post). now rewrite !without_miss. }
  subst s'. rewrite deliver_Close. split.
  - intros Hlt. apply Nat.ltb_lt in Hlt. rewrite Hlt. cbv zeta.
    cbn [fst windows zCounter]. rewrite Hwo.
    match goal with |- context [[fst ?r1; fst ?r2]] =>
      exists (fst r1), (fst r2) end.
    match goal with |- context [createRandomWindow ?z1 ?x1 ?y1 ?t ?v b] =>
      destruct (createRandomWindow_placed z1 x1 y1 t v b) as (Hz1 & Hx1 & Hy1);
      set (r1 := createRandomWindow z1 x1 y1 t v b) in *;
      match goal with |- context [createRandomWindow ?z2 ?x2 ?y2 t v (snd r1)] =>
        destruct (createRandomWindow_placed z2 x2 y2 t v (snd r1))
          as (Hz2 & Hx2 & Hy2)
      end
    end.
    rewrite (Hx1 _ eq_refl), (Hy1 _ eq_refl), (Hx2 _ eq_refl), (Hy2 _ eq_refl).
    rewrite Hz1, Hz2. rewrite <- app_assoc.
    repeat split; try reflexivity; try lia.
    rewrite Hws, ?length_app. simpl. rewrite ?length_app. simpl. lia.
  - intros Heq. rewrite Heq, Nat.ltb_irrefl. cbn [fst windows zCounter].
    rewrite Hwo. repeat split.
    rewrite <- Heq, Hws, !length_app. simpl. lia.
Qed.

Lemma C2_close_replaces_one_by_two_witness :
  let s := fst (submitted "a1b2") in
  let b := snd (submitted "a1b2") in
  exists w1 w2,
    map Types.id (windows (fst (deliver (Close "8gxwb08" 396 168) s b)))
    = ["8uev37z"; "erut2p4"; "sb76bwt"; "c32f7tb"; Types.id w1; Types.id w2]
    /\ (Types.x w1, Types.y w1) = (376, 148)
    /\ (Types.x w2, Types.y w2) = (416, 188)
    /\ Types.zIndex w1 = 106 /\ Types.zIndex w2 = 107.
Proof.
  intros s b.
  destruct (C2_close_replaces_one_by_two s b "8gxwb08" 396 168
              (firstn 1 (windows s)) (skipn 2 (windows s))
              (nth 1 (windows s) (mkWindow "" ERROR 0 0 0 0 0 "" Undefined 0)))
    as [Hbelow _]; try (vm_compute; reflexivity).
  destruct Hbelow as (w1 & w2 & Hws & Hp1 & Hp2 & Hz1 & Hz2 & _).
  - vm_compute. lia.
  - exists w1, w2. rewrite Hws. repeat split; assumption.
Defined.

(** ** C3: stacking keys across the session *)

(** C3 on a run of the page: after the crash burst (keys 100 to 104, counter
    105) the first window is focused and receives 106; the next tick of the
    spawn timer reads the counter, 106, and stamps the new window with it.
    Two assignments, one key. *)
Theorem C3_tick_reuses_the_focused_key :
  map (fun w => (Types.id w, Types.zIndex w))
      (windows (fst (run [Change "a1b2"; Submit; Focus "8uev37z"; Tick]
                         initialState browser0)))
  = [("8uev37z", 106); ("8gxwb08", 101); ("erut2p4", 102); ("sb76bwt", 103);
     ("c32f7tb", 104); ("xjllob7", 106)].
Proof. vm_compute. reflexivity. Qed.

(** The same happens after any focus or close that is followed by a tick:
    the tick stamps the counter itself, which the focus has just given
    away. *)
Lemma tick_after_focus_reuses s b id :
  mode s = crash -> (List.length (windows s) < MAX_WINDOWS)%nat ->
  let s1 := fst (deliver (Focus id) s b) in
  let s2 := fst (deliver Tick s1 b) in
  exists w, windows s2 = map (refocused id (zCounter s + 1)) (windows s) ++ [w]
            /\ Types.zIndex w = zCounter s + 1.
Proof.
  intros Hm Hlt s1 s2. subst s1 s2.
  rewrite deliver_Focus. cbn [fst]. rewrite deliver_Tick. cbn [mode windows zCounter].
  rewrite Hm, length_map.
  apply Nat.leb_gt in Hlt. rewrite Hlt. cbv zeta. cbn [fst windows].
  eexists. split; [reflexivity|]. apply createRandomWindow_zIndex.
Qed.

(** ** C4: closing an id that names no window *)

(** C4, as stated, fails: on the page after the crash burst, closing an id
    that no window carries leaves seven windows where there were five and
    moves the counter from 105 to 107. *)
Lemma C4_absent_id_close_spawns :
  let s := fst (submitted "a1b2") in
  let s' := fst (deliver (Close "nope" 0 0) s (snd (submitted "a1b2"))) in
  has_id "nope" (windows s) = false
  /\ ~ (windows s' = windows s /\ zCounter s' = zCounter s).
Proof.
  split; [vm_compute; reflexivity|].
  intros [_ H]. vm_compute in H. discriminate H.
Qed.

(** C4, amended: [close(id, x, y)] for an id that no window carries removes
    nothing; below the cap it still appends the two replacement windows, at
    [(x-20, y-20)] with key [zCounter+1] and at [(x+20, y+20)] with
    [zCounter+2], and advances the counter by 2, the rest of the state
    unchanged; at the cap it changes nothing at all. *)
Theorem C4_close_of_absent_id
    (s : State) (b : Browser) (id : string) (x y : Z) :
  has_id id (windows s) = false ->
  ((List.length (windows s) < MAX_WINDOWS)%nat ->
     exists w1 w2,
       fst (deliver (Close id x y) s b)
       = mkState (mode s) (inputCode s) (errorMsg s) (windows s ++ [w1; w2])
                 (zCounter s + 2) (mousePos s) (probability s)
                 (crashTask s) (crashVisual s)
       /\ (Types.x w1, Types.y w1) = (x - 20, y - 20)
       /\ (Types.x w2, Types.y w2) = (x + 20, y + 20)
       /\ Types.zIndex w1 = zCounter s + 1
       /\ Types.zIndex w2 = zCounter s + 2)
  /\ ((MAX_WINDOWS <= List.length (windows s))%nat ->
        deliver (Close id x y) s b = (s, b)).
Proof.
  intros Hmiss. rewrite deliver_Close, (without_miss _ _ Hmiss). split.
  - intros Hlt. apply Nat.ltb_lt in Hlt. rewrite Hlt. cbv zeta. cbn [fst].
    match goal with |- context [[fst ?r1; fst ?r2]] =>
      exists (fst r1), (fst r2) end.
    match goal with |- context [createRandomWindow ?z1 ?x1 ?y1 ?t ?v b] =>
      destruct (createRandomWindow_placed z1 x1 y1 t v b) as (Hz1 & Hx1 & Hy1);
      set (r1 := createRandomWindow z1 x1 y1 t v b) in *;
      match goal with |- context [createRandomWindow ?z2 ?x2 ?y2 t v (snd r1)] =>
        destruct (createRandomWindow_placed z2 x2 y2 t v (snd r1))
          as (Hz2 & Hx2 & Hy2)
      end
    end.
    rewrite (Hx1 _ eq_refl), (Hy1 _ eq_refl), (Hx2 _ eq_refl), (Hy2 _ eq_refl).
    rewrite Hz1, Hz2. repeat split; try reflexivity; lia.
  - intros Hge. apply Nat.ltb_ge in Hge. rewrite Hge. now destruct s.
Qed.

Lemma C4_close_of_absent_id_witness :
  let s := fst (submitted "a1b2") in
  exists w1 w2,
    windows (fst (deliver (Close "nope" 0 0) s browser0)) = windows s ++ [w1; w2]
    /\ Types.zIndex w1 = 106 /\ Types.zIndex w2 = 107.
Proof.
  intros s.
  destruct (C4_close_of_absent_id s browser0 "nope" 0 0) as [Hbelow _].
  - vm_compute. reflexivity.
  - destruct Hbelow as (w1 & w2 & Hs & _ & _ & Hz1 & Hz2).
    + vm_compute. lia.
    + exists w1, w2. rewrite Hs. repeat split; assumption.
Defined.

(** ** C5: focus *)

(** C5, as stated, fails: on the page after the crash burst, focusing an id
    that no window carries moves the counter from 105 to 106. *)
Lemma C5_absent_id_focus_advances_counter :
  let s := fst (submitted "a1b2") in
  let s' := fst (deliver (Focus "nope") s (snd (submitted "a1b2"))) in
  has_id "nope" (windows s) = false
  /\ ~ (windows s' = windows s /\ zCounter s' = zCounter s).
Proof.
  split; [vm_compute; reflexivity|].
  intros [_ H]. vm_compute in H. discriminate H.
Qed.

(** C5, amended: in a state where no window is stacked above the counter
    (every state of a session is one), [focus(id)] advances the counter by 1
    whether or not a window carries [id], and changes nothing else but the
    stacking key of the windows that carry [id]: they receive [zCounter+1],
    which is strictly greater than the key of every other window.  When no
    window carries [id] the collection is unchanged. *)
Theorem C5_focus_assigns_top_key (s : State) (b : Browser) (id : string) :
  z_bounded s ->
  let s' := fst (deliver (Focus id) s b) in
  deliver (Focus id) s b
  = (mkState (mode s) (inputCode s) (errorMsg s)
             (map (fun w => if String.eqb (Types.id w) id
                            then with_zIndex (zCounter s + 1) w else w)
                  (windows s))
             (zCounter s + 1) (mousePos s) (probability s)
             (crashTask s) (crashVisual s), b)
  /\ (forall w, In w (windows s') -> Types.id w = id ->
                Types.zIndex w = zCounter s + 1)
  /\ (forall w, In w (windows s') -> Types.id w <> id ->
                In w (windows s) /\ Types.zIndex w < zCounter s + 1)
  /\ (has_id id (windows s) = false -> windows s' = windows s).
Proof.
  intros Hz s'. subst s'. rewrite deliver_Focus. cbn [fst windows].
  split; [reflexivity|]. unfold z_bounded in Hz. rewrite Forall_forall in Hz.
  split; [|split].
  - intros w Hin Hid. apply in_map_iff in Hin as (w0 & Hw & Hin0).
    unfold refocused in Hw. destruct (String.eqb_spec (Types.id w0) id).
    + now subst w.
    + subst w. contradiction.
  - intros w Hin Hid. apply in_map_iff in Hin as (w0 & Hw & Hin0).
    unfold refocused in Hw. destruct (String.eqb_spec (Types.id w0) id).
    + subst w. simpl in Hid. contradiction.
    + subst w. split; [assumption|]. specialize (Hz _ Hin0). simpl in Hz. lia.
  - apply refocused_miss.
Qed.

Lemma C5_focus_assigns_top_key_witness :
  let s := fst (submitted "a1b2") in
  map Types.zIndex (windows (fst (deliver (Focus "erut2p4") s browser0)))
  = [100; 101; 106; 103; 104].
Proof.
  intros s.
  destruct (C5_focus_assigns_top_key s browser0 "erut2p4") as [H _].
  - unfold z_bounded. vm_compute. repeat constructor; discriminate.
  - rewrite H. vm_compute. reflexivity.
Defined.

(** ** C6: a crash code *)



(** ** C7: a success code *)



(** ** C8: rejected input *)



(** ** C9: the content of a CODE window *)

(** C9, as stated, fails: the CODE window that the factory builds from the
    eleventh draw of the tape on is not twenty pool lines joined by line
    breaks, because it ends in a line break. *)
Lemma C9_content_ends_in_line_break :
  let w := fst (createRandomWindow 100 None None (Some "A1") (Some "B2")
                  (mkBrowser tape0 10 [] false 1280 800)) in
  Types.type w = CODE
  /\ ~ (exists lines,
          List.length lines = 20%nat
          /\ Forall (fun l => In l snippets) lines
          /\ Types.content w = Str (newline_joined lines)).
Proof.
  intros w. split; [vm_compute; reflexivity|].
  intros (lines & Hlen & Hall & Hc).
  assert (Hlast : exists text, Types.content w = Str text
                               /\ lastChar text = Some (ascii_of_nat 10)).
  { eexists. split; vm_compute; reflexivity. }
  destruct Hlast as (text & Ht & Hlast). rewrite Hc in Ht.
  injection Ht as Ht. subst text.
  destruct (lastChar_newline_joined lines) as (c & Hl & Hne);
    [destruct lines; [discriminate|discriminate]|assumption|].
  congruence.
Qed.

(** C9, amended: the content of every CODE window that the factory builds is
    twenty lines of the twelve-entry snippet pool, each followed by a line
    break: the lines joined by line breaks, and one more line break at the
    end. *)
Theorem C9_code_window_content
    (zIndex : Z) (x y : option Z) (taskId visualId : option string) (b : Browser) :
  let w := fst (createRandomWindow zIndex x y taskId visualId b) in
  Types.type w = CODE ->
  List.length snippets = 12%nat
  /\ exists lines,
       List.length lines = 20%nat
       /\ Forall (fun l => In l snippets) lines
       /\ Types.content w = Str (newline_joined lines ++ newline)%string.
Proof.
  intros w Hty. split; [reflexivity|].
  destruct (createRandomWindow_code zIndex x y taskId visualId b Hty)
    as (lines & Hlen & Hall & Hc).
  exists lines. repeat split; try assumption.
  fold w in Hc. rewrite Hc, newline_terminated_joined; [reflexivity|].
  destruct lines; [discriminate|discriminate].
Qed.

Lemma C9_code_window_content_witness :
  let w := fst (createRandomWindow 100 None None (Some "A1") (Some "B2")
                  (mkBrowser tape0 10 [] false 1280 800)) in
  exists lines,
    List.length lines = 20%nat
    /\ Forall (fun l => In l snippets) lines
    /\ Types.content w = Str (newline_joined lines ++ newline)%string.
Proof.
  intros w.
  apply (C9_code_window_content 100 None None (Some "A1") (Some "B2")
           (mkBrowser tape0 10 [] false 1280 800)).
  vm_compute. reflexivity.
Defined.

(** ** C10: no window above the counter *)

(** C10: along every sequence of events from the initial page (submission
    with its crash burst, ticks, focus, close with its replacements, drag,
    for any ids and arguments), after every event each window of the
    collection has a stacking key at most the counter. *)
Theorem C10_zIndex_at_most_zCounter (es : list Event) (b : Browser) :
  Forall z_bounded (trace es initialState b).
Proof.
  apply trace_invariant.
  - intros e s b'. apply deliver_z_bounded.
  - constructor.
Qed.

(** * Further properties of the code *)

(** ** Effects on the browser *)

Lemma steady_ret {A} iw ih (a : A) (R : A -> Prop) : R a -> steady iw ih (ret a) R.
Proof. intros H b Hw Hh. simpl. auto. Qed.

Lemma steady_bind {A B} iw ih (m : IO A) (k : A -> IO B)
    (Q : A -> Prop) (R : B -> Prop) :
  steady iw ih m Q -> (forall a, Q a -> steady iw ih (k a) R) ->
  steady iw ih (bind m k) R.
Proof.
  intros Hm Hk b Hw Hh. rewrite bind_unfold.
  destruct (Hm b Hw Hh) as (Hw' & Hh' & Hq). now apply Hk.
Qed.

Lemma steady_weaken {A} iw ih (m : IO A) (Q R : A -> Prop) :
  steady iw ih m Q -> (forall a, Q a -> R a) -> steady iw ih m R.
Proof.
  intros Hm H b Hw Hh. destruct (Hm b Hw Hh) as (? & ? & ?). auto.
Qed.

Lemma steady_Math_random iw ih :
  steady iw ih JS.Math_random (fun k => 0 <= k < JS.two53).
Proof.
  intros b Hw Hh. simpl. repeat split; auto;
    apply Z.mod_pos_bound; unfold JS.two53; lia.
Qed.

Lemma steady_playSound iw ih src : steady iw ih (playSound src) (fun _ => True).
Proof. intros b Hw Hh. simpl. auto. Qed.

Lemma steady_innerWidth iw ih : steady iw ih window_innerWidth (fun w => w = iw).
Proof. intros b Hw Hh. simpl. auto. Qed.

Lemma steady_innerHeight iw ih : steady iw ih window_innerHeight (fun h => h = ih).
Proof. intros b Hw Hh. simpl. auto. Qed.

Lemma steady_randomInt iw ih min max :
  steady iw ih (randomInt min max) (fun n => min <= max -> min <= n <= max).
Proof.
  unfold randomInt. eapply steady_bind; [apply steady_Math_random|].
  intros k Hk. apply steady_ret. intros Hle.
  pose proof (floor_scaled_range k (max - min + 1) Hk). lia.
Qed.

Lemma steady_randomItem {T} iw ih (d : T) (arr : list T) :
  steady iw ih (randomItem d arr) (fun r => arr <> [] -> In r arr).
Proof.
  unfold randomItem. eapply steady_bind; [apply steady_Math_random|].
  intros k Hk. apply steady_ret. intros Hne. apply nth_In.
  assert (0 < Z.of_nat (List.length arr)) by (destruct arr; simpl; [congruence|lia]).
  pose proof (floor_scaled_range k _ Hk H). lia.
Qed.

Lemma steady_any {A} iw ih (m : IO A) (R : A -> Prop) :
  steady iw ih m R -> steady iw ih m (fun _ => True).
Proof. intros H. eapply steady_weaken; [exact H|auto]. Qed.

Lemma steady_generateRandomCode_loop iw ih n : forall code,
  steady iw ih (generateRandomCode_loop n code) (fun _ => True).
Proof.
  induction n as [|n IH]; intros code; simpl.
  - now apply steady_ret.
  - eapply steady_bind; [apply steady_randomItem|]. intros s _. apply IH.
Qed.

Lemma steady_generateId iw ih : steady iw ih generateId (fun _ => True).
Proof.
  unfold generateId. eapply steady_bind; [apply steady_Math_random|].
  intros k _. now apply steady_ret.
Qed.

Lemma quiet_ret {A} (a : A) : quiet (ret a).
Proof. intros b. reflexivity. Qed.

Lemma quiet_bind {A B} (m : IO A) (k : A -> IO B) :
  quiet m -> (forall a, quiet (k a)) -> quiet (bind m k).
Proof. intros Hm Hk b. rewrite bind_unfold, Hk. apply Hm. Qed.

Lemma quiet_Math_random : quiet JS.Math_random.
Proof. intros b. reflexivity. Qed.

Lemma quiet_randomInt min max : quiet (randomInt min max).
Proof. intros b. reflexivity. Qed.

Lemma quiet_randomItem {T} (d : T) arr : quiet (randomItem d arr).
Proof. intros b. reflexivity. Qed.

Lemma quiet_generateId : quiet generateId.
Proof. intros b. reflexivity. Qed.

Lemma quiet_generateRandomCode_loop n : forall code,
  quiet (generateRandomCode_loop n code).
Proof.
  induction n as [|n IH]; intros code; simpl.
  - apply quiet_ret.
  - apply quiet_bind; [apply quiet_randomItem|]. intros s. apply IH.
Qed.

Lemma drawn_generateRandomCode_loop n : forall code b,
  drawn (snd (generateRandomCode_loop n code b)) = (drawn b + n)%nat.
Proof.
  induction n as [|n IH]; intros code b; simpl.
  - lia.
  - rewrite bind_unfold, IH. simpl. lia.
Qed.

(** ** utils.ts *)

(** X1: [randomInt(min, max)] with [min <= max] returns an integer between
    [min] and [max], both included, and consumes one draw. *)
Theorem X1_randomInt_between (min max : Z) (b : Browser) :
  min <= max ->
  min <= fst (randomInt min max b) <= max
  /\ drawn (snd (randomInt min max b)) = S (drawn b).
Proof.
  intros Hle. split; [|reflexivity].
  destruct (steady_randomInt (innerWidth b) (innerHeight b) min max b
              eq_refl eq_refl) as (_ & _ & H).
  now apply H.
Qed.

Lemma X1_randomInt_between_witness :
  -3 <= fst (randomInt (-3) 3 browser0) <= 3.
Proof. apply (X1_randomInt_between (-3) 3 browser0). lia. Defined.

(** X2: [randomItem(arr)] on an array that is not empty returns one of its
    elements; on the empty array it reads index 0 of nothing, which is
    [undefined]. *)
Theorem X2_randomItem_member {T} (undefined : T) (arr : list T) (b : Browser) :
  (arr <> [] -> In (fst (randomItem undefined arr b)) arr)
  /\ fst (randomItem undefined [] b) = undefined.
Proof.
  split.
  - intros Hne. now apply (randomItem_In undefined arr Hne b).
  - unfold randomItem. rewrite bind_unfold. cbn [ret fst].
    now destruct (Z.to_nat _).
Qed.

Lemma X2_randomItem_member_witness :
  In (fst (randomItem "undefined" genericErrors browser0)) genericErrors.
Proof.
  apply (X2_randomItem_member "undefined" genericErrors browser0). discriminate.
Defined.

(** X3: [generateRandomCode(n)] returns [n] lines of the snippet pool, each
    followed by a line break (the empty string for [n = 0]); it consumes
    [n] draws and requests no sound. *)
Theorem X3_generateRandomCode_any_count (n : nat) (b : Browser) :
  (exists lines,
     List.length lines = n
     /\ Forall (fun l => In l snippets) lines
     /\ fst (generateRandomCode n b) = newline_terminated lines)
  /\ drawn (snd (generateRandomCode n b)) = (drawn b + n)%nat
  /\ played (snd (generateRandomCode n b)) = played b.
Proof.
  unfold generateRandomCode. split; [|split].
  - destruct (generateRandomCode_loop_lines n "" b) as (lines & Hl & Ha & He).
    exists lines. auto.
  - apply drawn_generateRandomCode_loop.
  - apply quiet_generateRandomCode_loop.
Qed.

Lemma digit36_is_digit36 (d : Z) : 0 <= d < 36 -> is_digit36 (JS.digit36 d) = true.
Proof.
  intros Hd.
  assert (Hnat : forall n, (n < 36)%nat ->
                   is_digit36 (JS.digit36 (Z.of_nat n)) = true).
  { intros n Hn. do 36 (destruct n as [|n]; [reflexivity|]). lia. }
  rewrite <- (Z2Nat.id d) by lia. apply Hnat. lia.
Qed.

Lemma fraction36_shape n : forall k,
  0 <= k < JS.two53 ->
  (String.length (JS.fraction36 n k) <= n)%nat
  /\ all_chars is_digit36 (JS.fraction36 n k) = true.
Proof.
  assert (H53 : 0 < JS.two53) by (unfold JS.two53; lia).
  induction n as [|n IH]; intros k Hk; cbn [JS.fraction36].
  { split; [apply Nat.le_refl|reflexivity]. }
  destruct (k =? 0); cbn [String.length all_chars];
    [split; [apply Nat.le_0_l|reflexivity]|].
  destruct (IH (36 * k mod JS.two53)) as (Hlen & Hall).
  { now apply Z.mod_pos_bound. }
  split; [now apply le_n_S|]. rewrite Hall, digit36_is_digit36; [reflexivity|].
  split; [apply Z.div_pos; lia|apply Z.div_lt_upper_bound; lia].
Qed.

(** X4: [generateId()] returns at most seven characters, each a digit or a
    lower-case letter (a base-36 digit). *)
Theorem X4_generateId_shape (b : Browser) :
  (String.length (fst (generateId b)) <= 7)%nat
  /\ all_chars is_digit36 (fst (generateId b)) = true.
Proof.
  unfold generateId. rewrite bind_unfold. cbn [ret fst].
  apply fraction36_shape. apply Math_random_range.
Qed.

(** ** The window factory: geometry, sounds, dress *)

Lemma WindowType_eqb_eq (a b : WindowType) :
  Types.WindowType_eqb a b = true <-> a = b.
Proof. destruct a, b; simpl; split; intros H; congruence. Qed.

Lemma createRandomWindow_geometry iw ih z x y t v :
  steady iw ih (createRandomWindow z x y t v)
    (fun w =>
       In (Types.type w) [IMAGE; TEXT; CODE; CAPTCHA]
       /\ (Types.type w = CAPTCHA ->
             Types.width w = Z.min 300 (iw - 40) /\ Types.height w = 320)
       /\ (Types.type w <> CAPTCHA ->
             (exists wd, 200 <= wd <= 400 /\ Types.width w = Z.min wd (iw - 40))
             /\ 150 <= Types.height w <= 300)
       /\ (x = None -> 10 <= Types.x w <= Z.max 10 (iw - Types.width w - 20))
       /\ (y = None -> 60 <= Types.y w <= Z.max 60 (ih - Types.height w - 60))
       /\ -3 <= Types.rotation w <= 3).
Proof.
  unfold createRandomWindow.
  eapply steady_bind; [apply steady_randomItem|]. intros e _. cbv beta zeta.
  eapply steady_bind; [apply steady_playSound|]. intros _ _. cbv beta.
  eapply steady_bind; [apply steady_Math_random|]. intros r _. cbv beta.
  eapply steady_bind with (Q := fun _ => True).
  { destruct (JS.below_3_tenths r); [|now apply steady_ret].
    destruct (if given v then _ else _); [|now apply steady_ret].
    destruct (JS.truthy _); [apply steady_playSound|now apply steady_ret]. }
  intros _ _. cbv beta.
  eapply steady_bind; [apply steady_randomItem|]. intros type Hty. cbv beta.
  specialize (Hty ltac:(discriminate)).
  eapply steady_bind with
    (Q := fun wd => (type = CAPTCHA -> wd = 300)
                    /\ (type <> CAPTCHA -> 200 <= wd <= 400)).
  { destruct (Types.WindowType_eqb type CAPTCHA) eqn:E.
    - apply steady_ret. apply WindowType_eqb_eq in E. split; congruence.
    - eapply steady_weaken; [apply steady_randomInt|]. cbv beta.
      intros wd Hwd. split; [|intros _; apply Hwd; lia].
      intros Ec. apply WindowType_eqb_eq in Ec. congruence. }
  intros width Hwidth. cbv beta.
  eapply steady_bind with
    (Q := fun h => (type = CAPTCHA -> h = 320)
                   /\ (type <> CAPTCHA -> 150 <= h <= 300)).
  { destruct (Types.WindowType_eqb type CAPTCHA) eqn:E.
    - apply steady_ret. apply WindowType_eqb_eq in E. split; congruence.
    - eapply steady_weaken; [apply steady_randomInt|]. cbv beta.
      intros h Hh. split; [|intros _; apply Hh; lia].
      intros Ec. apply WindowType_eqb_eq in Ec. congruence. }
  intros height Hheight. cbv beta.
  eapply steady_bind with (Q := fun _ => True).
  { destruct type.
    - eapply steady_bind; [apply steady_randomItem|].
      intros emoji _. apply steady_ret. exact I.
    - apply steady_ret. exact I.
    - eapply steady_bind; [apply (steady_generateRandomCode_loop iw ih 20 "")|].
      intros code _. apply steady_ret. exact I.
    - apply steady_ret. exact I.
    - apply steady_ret. exact I. }
  intros [content title] _.
  eapply steady_bind; [apply steady_innerWidth|]. intros iw0 ->. cbv beta zeta.
  eapply steady_bind with
    (Q := fun p => x = None -> 10 <= p <= Z.max 10 (iw - Z.min width (iw - 40) - 20)).
  { destruct x; [apply steady_ret; discriminate|].
    eapply steady_bind; [apply steady_innerWidth|]. intros iw1 ->.
    eapply steady_weaken; [apply steady_randomInt|]. cbv beta.
    intros p Hp _. apply Hp. lia. }
  intros posX HposX. cbv beta.
  eapply steady_bind with
    (Q := fun p => y = None -> 60 <= p <= Z.max 60 (ih - height - 60)).
  { destruct y; [apply steady_ret; discriminate|].
    eapply steady_bind; [apply steady_innerHeight|]. intros ih1 ->.
    eapply steady_weaken; [apply steady_randomInt|]. cbv beta.
    intros p Hp _. apply Hp. lia. }
  intros posY HposY. cbv beta.
  eapply steady_bind; [apply steady_generateId|]. intros id _. cbv beta.
  eapply steady_bind; [apply steady_randomInt|]. intros rot Hrot. cbv beta.
  apply steady_ret. cbn [Types.type Types.width Types.height Types.x Types.y
                         Types.rotation].
  destruct Hwidth as [Hw1 Hw2]. destruct Hheight as [Hh1 Hh2].
  split; [exact Hty|]. split; [|split; [|split; [|split]]].
  - intros E. now rewrite (Hw1 E), (Hh1 E).
  - intros E. split; [exists width; auto|auto].
  - exact HposX.
  - exact HposY.
  - apply Hrot. lia.
Qed.

(** X5: every window the factory builds is of one of the four kinds IMAGE,
    TEXT, CODE, CAPTCHA (never ERROR); a CAPTCHA is 300 wide and 320 high,
    any other kind between 200 and 400 wide and between 150 and 300 high,
    the width in both cases cut down to the viewport width less 40; the
    rotation is between -3 and 3. *)
Theorem X5_createRandomWindow_size
    (zIndex : Z) (x y : option Z) (taskId visualId : option string) (b : Browser) :
  let w := fst (createRandomWindow zIndex x y taskId visualId b) in
  In (Types.type w) [IMAGE; TEXT; CODE; CAPTCHA]
  /\ (Types.type w = CAPTCHA ->
        Types.width w = Z.min 300 (innerWidth b - 40) /\ Types.height w = 320)
  /\ (Types.type w <> CAPTCHA ->
        (exists wd, 200 <= wd <= 400
                    /\ Types.width w = Z.min wd (innerWidth b - 40))
        /\ 150 <= Types.height w <= 300)
  /\ Types.width w <= innerWidth b - 40
  /\ -3 <= Types.rotation w <= 3.
Proof.
  intros w.
  destruct (createRandomWindow_geometry (innerWidth b) (innerHeight b)
              zIndex x y taskId visualId b eq_refl eq_refl)
    as (_ & _ & Hty & Hc & Hn & _ & _ & Hr).
  fold w in Hty, Hc, Hn, Hr.
  split; [exact Hty|]. split; [exact Hc|]. split; [exact Hn|].
  split; [|exact Hr].
  destruct (Types.WindowType_eqb (Types.type w) CAPTCHA) eqn:E.
  - apply WindowType_eqb_eq in E. destruct (Hc E) as [-> _]. lia.
  - assert (Hne : Types.type w <> CAPTCHA).
    { intros Ec. apply WindowType_eqb_eq in Ec. congruence. }
    destruct (Hn Hne) as [(wd & _ & ->) _]. lia.
Qed.

Lemma X5_createRandomWindow_size_witness :
  let w := fst (createRandomWindow 100 None None (Some "A1") (Some "B2")
                  (mkBrowser tape0 1 [] false 1280 800)) in
  Types.type w = CAPTCHA /\ Types.width w = 300 /\ Types.height w = 320.
Proof.
  intros w.
  destruct (X5_createRandomWindow_size 100 None None (Some "A1") (Some "B2")
              (mkBrowser tape0 1 [] false 1280 800)) as (_ & Hc & _).
  assert (Hty : Types.type w = CAPTCHA) by (vm_compute; reflexivity).
  destruct (Hc Hty) as [Hw Hh]. split; [exact Hty|]. split; [|exact Hh].
  fold w in Hw. rewrite Hw. reflexivity.
Defined.

(** X6: a window built without a supplied position is placed by the
    factory with its left edge at 10 or more and its right edge at the
    viewport width less 20 or less, and with its top edge between 60 and the
    larger of 60 and the viewport height less the window height less 60;
    the viewport itself is left as it was. *)
Theorem X6_createRandomWindow_random_position
    (zIndex : Z) (taskId visualId : option string) (b : Browser) :
  let w := fst (createRandomWindow zIndex None None taskId visualId b) in
  let b' := snd (createRandomWindow zIndex None None taskId visualId b) in
  10 <= Types.x w
  /\ Types.x w + Types.width w <= innerWidth b - 20
  /\ 60 <= Types.y w <= Z.max 60 (innerHeight b - Types.height w - 60)
  /\ innerWidth b' = innerWidth b /\ innerHeight b' = innerHeight b.
Proof.
  intros w b'.
  destruct (createRandomWindow_geometry (innerWidth b) (innerHeight b)
              zIndex None None taskId visualId b eq_refl eq_refl)
    as (Hw & Hh & Hty & Hc & Hn & Hx & Hy & _).
  fold w in Hty, Hc, Hn, Hx, Hy. fold b' in Hw, Hh.
  specialize (Hx eq_refl). specialize (Hy eq_refl).
  assert (Hwidth : Types.width w <= innerWidth b - 40).
  { destruct (Types.WindowType_eqb (Types.type w) CAPTCHA) eqn:E.
    - apply WindowType_eqb_eq in E. destruct (Hc E) as [-> _]. lia.
    - assert (Hne : Types.type w <> CAPTCHA).
      { intros Ec. apply WindowType_eqb_eq in Ec. congruence. }
      destruct (Hn Hne) as [(wd & _ & ->) _]. lia. }
  split; [lia|]. split; [lia|]. split; [exact Hy|]. split; assumption.
Qed.

(** X7: building a window always requests one sound of the generic error
    pool, first; it may request one more, and then it is the sound of the
    visual bundle that the visual id resolves to.  Nothing else is
    requested, and requests already made are kept. *)
Theorem X7_createRandomWindow_sounds
    (zIndex : Z) (x y : option Z) (taskId visualId : option string) (b : Browser) :
  let b' := snd (createRandomWindow zIndex x y taskId visualId b) in
  exists g,
    In g genericErrors
    /\ (played b' = played b ++ [g]
        \/ exists v vis,
             visualId = Some v /\ JS.prop VISUAL_MAP v = Some vis
             /\ played b' = played b ++ [g; sound vis]).
Proof.
  intros b'. subst b'. unfold createRandomWindow.
  rewrite bind_unfold. cbv beta zeta.
  pose proof (randomItem_In "undefined" genericErrors ltac:(discriminate) b) as Hg.
  set (g := fst (randomItem "undefined" genericErrors b)) in *.
  exists g. split; [exact Hg|].
  rewrite bind_unfold. cbv beta. rewrite bind_unfold. cbv beta.
  rewrite bind_unfold. cbv beta.
  match goal with |- context [played (snd (?rest ?b4))] =>
    assert (Hq : quiet rest); [|rewrite (Hq b4)] end.
  { apply quiet_bind; [apply quiet_randomItem|]. intros type.
    apply quiet_bind; [destruct (Types.WindowType_eqb type CAPTCHA);
                       [apply quiet_ret|apply quiet_randomInt]|]. intros width.
    apply quiet_bind; [destruct (Types.WindowType_eqb type CAPTCHA);
                       [apply quiet_ret|apply quiet_randomInt]|]. intros height.
    apply quiet_bind.
    { destruct type.
      - apply quiet_bind; [apply quiet_randomItem|]. intros; apply quiet_ret.
      - apply quiet_ret.
      - apply quiet_bind; [apply (quiet_generateRandomCode_loop 20 "")|].
        intros; apply quiet_ret.
      - apply quiet_ret.
      - apply quiet_ret. }
    intros [content title].
    apply quiet_bind; [intros b0; reflexivity|]. intros iw.
    apply quiet_bind.
    { destruct x; [apply quiet_ret|].
      apply quiet_bind; [intros b0; reflexivity|]. intros; apply quiet_randomInt. }
    intros posX. apply quiet_bind.
    { destruct y; [apply quiet_ret|].
      apply quiet_bind; [intros b0; reflexivity|]. intros; apply quiet_randomInt. }
    intros posY. apply quiet_bind; [apply quiet_generateId|]. intros id.
    apply quiet_bind; [apply quiet_randomInt|]. intros; apply quiet_ret. }
  destruct (JS.below_3_tenths _); [|left; reflexivity].
  destruct visualId as [v|]; cbn [given text_of]; [|left; reflexivity].
  destruct (JS.truthy v); [|left; reflexivity].
  destruct (JS.prop VISUAL_MAP v) as [vis|] eqn:Ev; [|left; reflexivity].
  destruct (JS.truthy (sound vis)); [|left; reflexivity].
  right. exists v, vis. split; [reflexivity|]. split; [exact Ev|].
  subst g. unfold randomItem, bind, ret, playSound, JS.Math_random.
  cbn [fst snd played]. now rewrite <- app_assoc.
Qed.

(** ** The crash grammar and the catalogs *)

Lemma digit_1_to_6 (d : ascii) :
  ((49 <=? nat_of_ascii d)%nat && (nat_of_ascii d <=? 54)%nat) = true ->
  In d ["1"; "2"; "3"; "4"; "5"; "6"]%char.
Proof.
  destruct d as [[] [] [] [] [] [] [] []]; intros H; try discriminate H;
    simpl; auto 10.
Qed.

Lemma digit_1_to_4 (d : ascii) :
  ((49 <=? nat_of_ascii d)%nat && (nat_of_ascii d <=? 52)%nat) = true ->
  In d ["1"; "2"; "3"; "4"]%char.
Proof.
  destruct d as [[] [] [] [] [] [] [] []]; intros H; try discriminate H;
    simpl; auto 10.
Qed.

(** The shape of a match of the crash grammar. *)
Lemma crashRegex_test_shape (code : string) :
  crashRegex_test code = true ->
  exists d e,
    code = String "A" (String d (String "B" (String e EmptyString)))
    /\ In d ["1"; "2"; "3"; "4"; "5"; "6"]%char
    /\ In e ["1"; "2"; "3"; "4"]%char.
Proof.
  destruct code as [|a [|d [|c [|e [|]]]]]; try discriminate.
  unfold crashRegex_test. intros H.
  apply andb_true_iff in H as [H He]. apply andb_true_iff in H as [H Hc].
  apply andb_true_iff in H as [Ha Hd].
  apply Ascii.eqb_eq in Ha, Hc. subst a c.
  exists d, e. auto using digit_1_to_6, digit_1_to_4.
Qed.

Lemma crash_context_resolves (t v : string) :
  crash_context t v = true ->
  JS.truthy t = true /\ JS.truthy v = true
  /\ exists task vis,
       JS.prop TASK_MAP t = Some task /\ JS.truthy task = true
       /\ JS.prop VISUAL_MAP v = Some vis /\ emojis vis <> []
       /\ img vis = (v ++ ".jpg")%string /\ JS.truthy (sound vis) = true.
Proof.
  unfold crash_context. intros H. apply andb_true_iff in H as [Hlen Hre].
  apply Nat.eqb_eq in Hlen.
  destruct (crashRegex_test_shape _ Hre) as (d & e & Hcode & Hd & He).
  destruct t as [|a [|d' [|]]]; try discriminate Hlen.
  simpl in Hcode. injection Hcode as -> -> ->.
  simpl in Hd, He.
  repeat (destruct Hd as [Hd|Hd]; [subst d|]); try contradiction;
    repeat (destruct He as [He|He]; [subst e|]); try contradiction;
    (split; [reflexivity|]; split; [reflexivity|];
     eexists; eexists; repeat split; discriminate).
Qed.

(** X8: every code that the crash grammar accepts splits into a task id
    that [TASK_MAP] knows and a visual id that [VISUAL_MAP] knows (whose
    image is the visual id with the suffix .jpg), so a crash never needs the
    fallback text or emoji; and each success code is accepted by the
    grammar, which is why the success test has to come first. *)
Theorem X8_crash_codes_resolve (code : string) :
  (crashRegex_test code = true ->
     let t := JS.substring code 0 (Some 2%nat) in
     let v := JS.substring code 2 None in
     code = (t ++ v)%string
     /\ exists task vis,
          JS.prop TASK_MAP t = Some task /\ JS.prop VISUAL_MAP v = Some vis
          /\ img vis = (v ++ ".jpg")%string)
  /\ (In code SUCCESS_CODES -> crashRegex_test code = true).
Proof.
  split.
  - intros Hre. destruct (crashRegex_test_shape _ Hre) as (d & e & -> & Hd & He).
    cbv zeta. cbn [JS.substring String.length Nat.min Nat.max Nat.sub
                   String.substring String.append].
    split; [reflexivity|].
    destruct (crash_context_resolves (String "A" (String d ""))
                (String "B" (String e "")))
      as (_ & _ & task & vis & Ht & _ & Hv & _ & Hi & _).
    { unfold crash_context. cbn [String.length String.append Nat.eqb andb].
      exact Hre. }
    exists task, vis. auto.
  - unfold SUCCESS_CODES. simpl. intuition (subst; reflexivity).
Qed.

Lemma X8_crash_codes_resolve_witness :
  JS.prop TASK_MAP "A4" = Some "Seleziona gli oggetti che assomigliano a volti umani :"
  /\ exists vis, JS.prop VISUAL_MAP "B2" = Some vis /\ img vis = "B2.jpg".
Proof.
  destruct (X8_crash_codes_resolve "A4B2") as [H _].
  destruct (H eq_refl) as (_ & task & vis & Ht & Hv & Hi).
  split; [reflexivity|]. exists vis. split; assumption.
Defined.

(** A window built for a crash context is dressed from the catalogs. *)
Lemma createRandomWindow_dressed z x y t v :
  crash_context t v = true ->
  always (createRandomWindow z x y (Some t) (Some v)) (dressed t v).
Proof.
  intros Hctx.
  destruct (crash_context_resolves t v Hctx)
    as (Htt & Htv & task & vis & Hpt & Htask & Hpv & Hem & _ & _).
  unfold createRandomWindow. do 4 io_next.
  eapply always_bind_with; [apply randomItem_In; discriminate|].
  intros type Hty. cbv beta. do 2 io_next.
  eapply always_bind_with with
    (Q := fun ct : Content * string =>
       match type with
       | TEXT => fst ct = Str task /\ snd ct = ("Task: " ++ t)%string
       | CODE => snd ct = "Terminal.exe"
       | IMAGE =>
           (exists e, In e (emojis vis)
                      /\ fst ct = ImageInfo e (Some (img vis)) "#ff9a9e" "#fecfef")
           /\ snd ct = img vis
       | CAPTCHA =>
           fst ct = CaptchaInfo (Some (img vis)) (emojis vis)
           /\ snd ct = (JS.substring task 0 (Some 25%nat) ++ "...")%string
       | ERROR => False
       end).
  { cbn [given text_of]. rewrite Htt, Htv, Hpt, Hpv, Htask.
    destruct type.
    - eapply always_bind_with; [apply randomItem_In; exact Hem|].
      intros e He. apply always_ret. cbn [fst snd]. split; [|reflexivity].
      exists e. auto.
    - apply always_ret. cbn [fst snd]. auto.
    - eapply always_bind; intros code. apply always_ret. reflexivity.
    - apply always_ret. cbn [fst snd]. auto.
    - simpl in Hty. intuition discriminate. }
  intros [content title] Hct. do 5 io_next. apply always_ret.
  exists task, vis. split; [exact Hpt|]. split; [exact Hpv|].
  cbn [Types.type Types.content Types.title]. cbn [fst snd] in Hct.
  destruct type; exact Hct.
Qed.

Lemma mapM_Forall {A B} (f : A -> IO B) (P : B -> Prop) :
  (forall a, always (f a) P) ->
  forall l b, Forall P (fst (mapM f l b)).
Proof.
  intros Hf l; induction l as [|a l IH]; intros b; simpl; [constructor|].
  rewrite !bind_unfold. simpl. constructor; [apply Hf|apply IH].
Qed.

Lemma dressed_refocused t v id z w : dressed t v w -> dressed t v (refocused id z w).
Proof.
  unfold refocused. destruct (String.eqb (Types.id w) id); [|auto].
  intros (task & vis & H1 & H2 & H3). exists task, vis. auto.
Qed.

Lemma dressed_moved t v id dx dy w : dressed t v w -> dressed t v (moved id dx dy w).
Proof.
  unfold moved. destruct (String.eqb (Types.id w) id); [|auto].
  intros (task & vis & H1 & H2 & H3). exists task, vis. auto.
Qed.

(** ** The session *)

Lemma session_ok_frame (s s' : State) :
  mode s' = mode s -> crashTask s' = crashTask s ->
  crashVisual s' = crashVisual s -> windows s' = windows s ->
  zCounter s' = zCounter s ->
  session_ok s -> session_ok s'.
Proof.
  unfold session_ok. intros -> -> -> -> ->. auto.
Qed.

(** Events that the page delivers keep the session well formed. *)
Lemma deliver_session_ok e s b :
  session_ok s -> rendered s e = true -> session_ok (fst (deliver e s b)).
Proof.
  intros Hok He.
  destruct e as [v| | | |id x y|id|id dx dy|cx cy| ]; simpl in He.
  - rewrite deliver_Change. now apply (session_ok_frame s).
  - destruct (mode s) eqn:Em; try discriminate.
    unfold session_ok in Hok. rewrite Em in Hok.
    destruct Hok as (Ht & Hv & Hw & Hz).
    rewrite deliver_Submit. cbv zeta.
    destruct (negb _) eqn:E1; cbn [fst].
    { unfold session_ok. cbn [mode crashTask crashVisual windows zCounter].
      rewrite ?Em. auto. }
    destruct (JS.includes _ _) eqn:E2; cbn [fst].
    { unfold session_ok. cbn [mode crashTask crashVisual windows zCounter]. auto. }
    destruct (crashRegex_test _) eqn:E3; cbn [fst].
    2:{ unfold session_ok. cbn [mode crashTask crashVisual windows zCounter].
        rewrite ?Em. auto. }
    destruct (crashRegex_test_shape _ E3) as (d & e & Hcode & _).
    rewrite Hcode in *.
    cbn [JS.substring String.length Nat.min Nat.max Nat.sub String.substring
         String.append] in *.
    assert (Hctx : crash_context (String "A" (String d ""))
                                 (String "B" (String e "")) = true).
    { unfold crash_context. cbn [String.length String.append Nat.eqb andb].
      exact E3. }
    unfold session_ok. cbn [mode crashTask crashVisual windows zCounter].
    split; [exact Hctx|]. split; [exact E2|]. split; [|lia].
    unfold burst. apply mapM_Forall. intros i.
    now apply createRandomWindow_dressed.
  - rewrite deliver_Restart. unfold session_ok. simpl. auto.
  - destruct (mode s) eqn:Em; try discriminate.
    unfold session_ok in Hok. rewrite Em in Hok.
    destruct Hok as (Hctx & Hns & Hw & Hz).
    rewrite deliver_Tick, Em.
    destruct (MAX_WINDOWS <=? List.length (windows s))%nat; cbv zeta; cbn [fst];
      unfold session_ok; cbn [mode crashTask crashVisual windows zCounter];
      rewrite ?Em; (split; [exact Hctx|]; split; [exact Hns|]; split; [|lia]).
    + exact Hw.
    + apply Forall_app. split; [exact Hw|]. constructor; [|constructor].
      now apply createRandomWindow_dressed.
  - destruct (mode s) eqn:Em; try discriminate.
    unfold session_ok in Hok. rewrite Em in Hok.
    destruct Hok as (Hctx & Hns & Hw & Hz).
    rewrite deliver_Close.
    destruct (List.length (windows s) <? MAX_WINDOWS)%nat; cbv zeta; cbn [fst];
      unfold session_ok; cbn [mode crashTask crashVisual windows zCounter];
      rewrite ?Em; (split; [exact Hctx|]; split; [exact Hns|]; split; [|lia]).
    + apply Forall_app. split; [now apply Forall_without|].
      constructor; [|constructor; [|constructor]];
        now apply createRandomWindow_dressed.
    + now apply Forall_without.
  - destruct (mode s) eqn:Em; try discriminate.
    unfold session_ok in Hok. rewrite Em in Hok.
    destruct Hok as (Hctx & Hns & Hw & Hz).
    rewrite deliver_Focus. cbn [fst].
    unfold session_ok; cbn [mode crashTask crashVisual windows zCounter].
    rewrite ?Em. split; [exact Hctx|]. split; [exact Hns|]. split; [|lia].
    apply Forall_map. eapply Forall_impl; [|exact Hw].
    intros w. apply dressed_refocused.
  - destruct (mode s) eqn:Em; try discriminate.
    unfold session_ok in Hok. rewrite Em in Hok.
    destruct Hok as (Hctx & Hns & Hw & Hz).
    rewrite deliver_Drag. cbn [fst].
    unfold session_ok; cbn [mode crashTask crashVisual windows zCounter].
    rewrite ?Em. split; [exact Hctx|]. split; [exact Hns|]. split; [|lia].
    apply Forall_map. eapply Forall_impl; [|exact Hw].
    intros w. apply dressed_moved.
  - rewrite deliver_MouseMove. now apply (session_ok_frame s).
  - rewrite deliver_ProbabilityTick. now apply (session_ok_frame s).
Qed.

Lemma Reachable_session_ok s b : Reachable s b -> session_ok s.
Proof.
  induction 1 as [b|s b e Hr IH He].
  - unfold session_ok. simpl. auto.
  - now apply deliver_session_ok.
Qed.

(** X9: on every page that can be reached, the crash context is set exactly
    in crash mode: outside crash mode the task id and the visual id are
    empty, there is no window and the counter is 100; in crash mode the two
    ids make a code of the crash grammar that is no success code, and the
    counter is at least 105. *)
Theorem X9_crash_context_iff_crash_mode (s : State) (b : Browser) :
  Reachable s b ->
  (mode s <> crash ->
     crashTask s = "" /\ crashVisual s = "" /\ windows s = [] /\ zCounter s = 100)
  /\ (mode s = crash ->
        String.length (crashTask s) = 2%nat
        /\ crashRegex_test (crashTask s ++ crashVisual s) = true
        /\ ~ In (crashTask s ++ crashVisual s)%string SUCCESS_CODES
        /\ 105 <= zCounter s).
Proof.
  intros Hr. apply Reachable_session_ok in Hr. unfold session_ok in Hr.
  split.
  - intros Hm. destruct (mode s); [exact Hr|exact Hr|congruence].
  - intros Hm. rewrite Hm in Hr. destruct Hr as (Hctx & Hns & _ & Hz).
    unfold crash_context in Hctx. apply andb_true_iff in Hctx as [Hl Hre].
    apply Nat.eqb_eq in Hl. repeat split; auto.
    intros Hin. apply includes_In in Hin. congruence.
Qed.

Lemma X9_crash_context_iff_crash_mode_witness :
  let s1 := fst (deliver (Change "a1b2") initialState browser0) in
  let b1 := snd (deliver (Change "a1b2") initialState browser0) in
  let s := fst (deliver Submit s1 b1) in
  String.length (crashTask s) = 2%nat
  /\ crashRegex_test (crashTask s ++ crashVisual s) = true.
Proof.
  intros s1 b1 s.
  assert (Hr1 : Reachable s1 b1).
  { apply (Reachable_step initialState browser0 (Change "a1b2"));
      [apply Reachable_start|reflexivity]. }
  assert (Hr : Reachable s (snd (deliver Submit s1 b1))).
  { apply (Reachable_step s1 b1 Submit Hr1). vm_compute. reflexivity. }
  destruct (X9_crash_context_iff_crash_mode s _ Hr) as [_ H].
  destruct H as (Hl & Hre & _); [vm_compute; reflexivity|]. split; assumption.
Defined.

(** X10: on every page that can be reached, every window of the collection
    is dressed from the catalog entries of the session's task and visual
    ids: a TEXT window shows the task instruction under the title
    "Task: <task id>", an IMAGE window one emoji of the visual bundle over
    its image, a CAPTCHA window the bundle's image and emoji under the first
    25 characters of the instruction; no window is of kind ERROR and none
    carries a fallback. *)
Theorem X10_windows_dressed_from_catalogs (s : State) (b : Browser) (w : WindowData) :
  Reachable s b -> In w (windows s) ->
  dressed (crashTask s) (crashVisual s) w.
Proof.
  intros Hr Hin. pose proof (Reachable_session_ok s b Hr) as Hok.
  pose proof (Reachable_windows s b Hr) as Hempty.
  unfold session_ok in Hok. destruct (mode s).
  - rewrite Hempty in Hin by discriminate. contradiction.
  - rewrite Hempty in Hin by discriminate. contradiction.
  - destruct Hok as (_ & _ & Hw & _). rewrite Forall_forall in Hw. auto.
Qed.

Lemma X10_windows_dressed_from_catalogs_witness :
  let s1 := fst (deliver (Change "a1b2") initialState browser0) in
  let b1 := snd (deliver (Change "a1b2") initialState browser0) in
  let s := fst (deliver Submit s1 b1) in
  dressed "A1" "B2" (hd (mkWindow "" ERROR 0 0 0 0 0 "" Undefined 0) (windows s)).
Proof.
  intros s1 b1 s.
  assert (Hr1 : Reachable s1 b1).
  { apply (Reachable_step initialState browser0 (Change "a1b2"));
      [apply Reachable_start|reflexivity]. }
  assert (Hr : Reachable s (snd (deliver Submit s1 b1))).
  { apply (Reachable_step s1 b1 Submit Hr1). vm_compute. reflexivity. }
  apply (X10_windows_dressed_from_catalogs s _ _ Hr).
  vm_compute. left. reflexivity.
Defined.

(** X11: the page leaves verified mode and crash mode by a restart only,
    and leaves intro mode by a submission only, which leads to verified or
    to crash: whatever event the page delivers, either the mode stays, or
    the event is a restart and the page is the initial one, or the event is
    a submission in intro mode. *)
Theorem X11_mode_transitions (e : Event) (s : State) (b : Browser) :
  rendered s e = true ->
  let s' := fst (deliver e s b) in
  mode s' = mode s
  \/ (e = Restart /\ s' = initialState)
  \/ (e = Submit /\ mode s = intro /\ (mode s' = verified \/ mode s' = crash)).
Proof.
  intros He s'. subst s'.
  destruct e as [v| | | |id x y|id|id dx dy|cx cy| ]; simpl in He.
  - left. now rewrite deliver_Change.
  - destruct (mode s) eqn:Em; try discriminate.
    rewrite deliver_Submit. cbv zeta.
    repeat match goal with |- context [if ?c then _ else _] => destruct c end;
      cbn [fst mode]; rewrite ?Em; try (left; reflexivity);
      right; right; repeat split; auto.
  - right. left. split; reflexivity.
  - left. rewrite deliver_Tick. destruct (mode s) eqn:Em; try discriminate.
    destruct (MAX_WINDOWS <=? List.length (windows s))%nat;
      cbn [fst mode]; rewrite ?Em; reflexivity.
  - left. rewrite deliver_Close.
    now destruct (List.length (windows s) <? MAX_WINDOWS)%nat.
  - left. now rewrite deliver_Focus.
  - left. now rewrite deliver_Drag.
  - left. now rewrite deliver_MouseMove.
  - left. now rewrite deliver_ProbabilityTick.
Qed.

Lemma X11_mode_transitions_witness :
  let s := fst (submitted "a1b1") in
  mode s = verified /\ mode (fst (deliver (MouseMove 3 4) s browser0)) = verified.
Proof.
  intros s. split; [vm_compute; reflexivity|].
  destruct (X11_mode_transitions (MouseMove 3 4) s browser0 eq_refl)
    as [H|[[H _]|[H _]]]; try discriminate H.
  rewrite H. vm_compute. reflexivity.
Defined.

(** X12: on every page that can be reached, no event that the page delivers
    other than a restart lowers the counter. *)
Theorem X12_zCounter_never_decreases (e : Event) (s : State) (b : Browser) :
  Reachable s b -> rendered s e = true -> e <> Restart ->
  zCounter s <= zCounter (fst (deliver e s b)).
Proof.
  intros Hr He Hne. apply Reachable_session_ok in Hr.
  destruct e as [v| | | |id x y|id|id dx dy|cx cy| ]; simpl in He.
  - rewrite deliver_Change. simpl. lia.
  - destruct (mode s) eqn:Em; try discriminate.
    unfold session_ok in Hr. rewrite Em in Hr. destruct Hr as (_ & _ & _ & Hz).
    rewrite deliver_Submit. cbv zeta.
    repeat match goal with |- context [if ?c then _ else _] => destruct c end;
      cbn [fst zCounter]; lia.
  - congruence.
  - rewrite deliver_Tick. destruct (mode s); cbn [fst]; try lia.
    destruct (MAX_WINDOWS <=? List.length (windows s))%nat; cbn [fst zCounter]; lia.
  - rewrite deliver_Close.
    destruct (List.length (windows s) <? MAX_WINDOWS)%nat; cbn [fst zCounter]; lia.
  - rewrite deliver_Focus. cbn [fst zCounter]. lia.
  - rewrite deliver_Drag. cbn [fst zCounter]. lia.
  - rewrite deliver_MouseMove. cbn [fst zCounter]. lia.
  - rewrite deliver_ProbabilityTick. cbn [zCounter]. lia.
Qed.

Lemma X12_zCounter_never_decreases_witness :
  100 <= zCounter (fst (deliver Submit initialState browser0)).
Proof.
  apply (X12_zCounter_never_decreases Submit initialState browser0).
  - apply Reachable_start.
  - reflexivity.
  - discriminate.
Defined.

(** ** Dragging *)



Lemma moved_miss id dx dy ws :
  has_id id ws = false -> map (moved id dx dy) ws = ws.
Proof.
  induction ws as [|w ws IH]; simpl; [reflexivity|].
  unfold moved at 1.
  destruct (String.eqb (Types.id w) id); simpl; [discriminate|].
  intros H. now rewrite IH.
Qed.

Lemma moved_up_to_position id dx dy w :
  with_position 0 0 (moved id dx dy w) = with_position 0 0 w.
Proof.
  unfold moved. now destruct (String.eqb (Types.id w) id).
Qed.


(** X14: a drag moves the windows that carry the id by the displacement, in
    place, and changes nothing else: the collection after the drag equals
    the collection before it up to the positions of its windows, a window
    with another id is exactly as it was, and a drag of an id that no window
    carries changes neither the state nor the browser. *)
Theorem X14_drag_moves_only (s : State) (b : Browser) (id : string) (dx dy : Z) :
  let s' := fst (deliver (Drag id dx dy) s b) in
  map (with_position 0 0) (windows s') = map (with_position 0 0) (windows s)
  /\ Forall2 (fun w w' =>
                if String.eqb (Types.id w) id
                then Types.x w' = Types.x w + dx /\ Types.y w' = Types.y w + dy
                else w' = w)
             (windows s) (windows s')
  /\ (has_id id (windows s) = false -> deliver (Drag id dx dy) s b = (s, b)).
Proof.
  intros s'. subst s'. rewrite deliver_Drag. cbn [fst windows]. split; [|split].
  - rewrite map_map. apply map_ext. intros w. apply moved_up_to_position.
  - induction (windows s) as [|w ws IH]; simpl; constructor; [|exact IH].
    unfold moved. destruct (String.eqb (Types.id w) id); simpl; auto.
  - intros Hmiss. rewrite (moved_miss _ _ _ _ Hmiss). now destruct s.
Qed.

Lemma X14_drag_moves_only_witness :
  let s := fst (submitted "a1b2") in
  deliver (Drag "nope" 5 7) s browser0 = (s, browser0).
Proof.
  intros s. destruct (X14_drag_moves_only s browser0 "nope" 5 7) as (_ & _ & H).
  apply H. vm_compute. reflexivity.
Defined.





(** X16: a mouse press on the title bar of a window runs [onFocus] twice
    from one render (the handler of the title bar, then the handler of the
    window the event bubbles to): the windows that carry the id receive the
    key [zCounter+1], the counter ends at [zCounter+2], and the drag starts
    at the pointer position. *)
Theorem X16_titlebar_press_focuses_twice
    (refs : DragRefs) (data : WindowData) (cx cy : Z) (s : State) (b : Browser) :
  pointer refs data (Press cx cy) s b
  = (mkDragRefs true (cx, cy),
     mkState (mode s) (inputCode s) (errorMsg s)
             (map (refocused (Types.id data) (zCounter s + 1)) (windows s))
             (zCounter s + 2) (mousePos s) (probability s) (crashTask s)
             (crashVisual s),
     b).
Proof.
  unfold pointer, titlebar_onMouseDown, handleStart, focusWindow.
  run_handler. unfold ret.
  cbn [fst snd mode inputCode errorMsg windows zCounter mousePos probability
       crashTask crashVisual].
  rewrite map_map.
  replace (zCounter s + 1 + 1) with (zCounter s + 2) by lia.
  rewrite (map_ext _ (refocused (Types.id data) (zCounter s + 1)));
    [reflexivity|].
  intros w. unfold refocused.
  destruct (String.eqb (Types.id w) (Types.id data)) eqn:E;
    cbn [with_zIndex Types.id]; rewrite E; reflexivity.
Qed.

(** ** The spawn timer and the surveillance readout *)

(** X17: outside crash mode the spawn timer does nothing.  In crash mode a
    tick always advances the counter by 1; when the collection is full it
    leaves the collection and the browser untouched (no draw, no sound);
    below the cap it appends one window, stamped with the counter as it was
    before the tick. *)
Theorem X17_tick (s : State) (b : Browser) :
  (mode s <> crash -> deliver Tick s b = (s, b))
  /\ (mode s = crash ->
        zCounter (fst (deliver Tick s b)) = zCounter s + 1
        /\ ((MAX_WINDOWS <= List.length (windows s))%nat ->
              windows (fst (deliver Tick s b)) = windows s
              /\ snd (deliver Tick s b) = b)
        /\ ((List.length (windows s) < MAX_WINDOWS)%nat ->
              exists w, windows (fst (deliver Tick s b)) = windows s ++ [w]
                        /\ Types.zIndex w = zCounter s)).
Proof.
  rewrite deliver_Tick. split.
  - intros Hm. destruct (mode s); congruence.
  - intros Hm. rewrite Hm.
    destruct (MAX_WINDOWS <=? List.length (windows s))%nat eqn:E;
      cbv zeta; cbn [fst snd zCounter windows].
    + apply Nat.leb_le in E. split; [reflexivity|]. split; [auto|]. lia.
    + apply Nat.leb_gt in E. split; [reflexivity|]. split; [lia|].
      intros _. eexists. split; [reflexivity|]. apply createRandomWindow_zIndex.
Qed.

Lemma X17_tick_witness :
  let s := fst (submitted "a1b2") in
  let b := snd (submitted "a1b2") in
  zCounter (fst (deliver Tick s b)) = 106
  /\ exists w, windows (fst (deliver Tick s b)) = windows s ++ [w]
               /\ Types.zIndex w = 105.
Proof.
  intros s b. destruct (X17_tick s b) as [_ H].
  destruct H as (Hz & _ & Hw); [vm_compute; reflexivity|].
  split; [rewrite Hz; vm_compute; reflexivity|].
  destruct Hw as (w & Hws & Hzi); [vm_compute; lia|].
  exists w. split; [exact Hws|]. rewrite Hzi. vm_compute. reflexivity.
Defined.

Lemma deliver_probability e s b :
  0 <= probability s <= 99 -> 0 <= probability (fst (deliver e s b)) <= 99.
Proof.
  intros Hp. destruct e as [v| | | |id x y|id|id dx dy|cx cy| ].
  - now rewrite deliver_Change.
  - rewrite deliver_Submit. cbv zeta.
    repeat match goal with |- context [if ?c then _ else _] => destruct c end;
      cbn [fst probability]; assumption.
  - rewrite deliver_Restart. simpl. lia.
  - rewrite deliver_Tick. destruct (mode s); try assumption.
    destruct (MAX_WINDOWS <=? List.length (windows s))%nat;
      cbn [fst probability]; assumption.
  - rewrite deliver_Close.
    destruct (List.length (windows s) <? MAX_WINDOWS)%nat;
      cbn [fst probability]; assumption.
  - now rewrite deliver_Focus.
  - now rewrite deliver_Drag.
  - now rewrite deliver_MouseMove.
  - rewrite deliver_ProbabilityTick. cbn [probability].
    pose proof (floor_scaled_range _ 100 (Math_random_range b)). lia.
Qed.

(** X18: the "human probability" readout is an integer between 0 and 99
    after every event of every sequence from the initial page. *)
Theorem X18_probability_is_a_percentage (es : list Event) (b : Browser) :
  Forall (fun s => 0 <= probability s <= 99) (trace es initialState b).
Proof.
  apply (trace_invariant (fun s => 0 <= probability s <= 99)).
  - intros e s b'. apply deliver_probability.
  - simpl. lia.
Qed.

(** ** Normalization *)

Lemma isWhiteSpace_upper c : JS.isWhiteSpace (JS.upper c) = JS.isWhiteSpace c.
Proof. destruct c as [[] [] [] [] [] [] [] []]; reflexivity. Qed.

Lemma upper_upper c : JS.upper (JS.upper c) = JS.upper c.
Proof. destruct c as [[] [] [] [] [] [] [] []]; reflexivity. Qed.

Lemma toUpperCase_idempotent s : JS.toUpperCase (JS.toUpperCase s) = JS.toUpperCase s.
Proof. induction s as [|c s IH]; simpl; [reflexivity|]. now rewrite upper_upper, IH. Qed.

Lemma trimStart_toUpperCase s :
  JS.trimStart (JS.toUpperCase s) = JS.toUpperCase (JS.trimStart s).
Proof.
  induction s as [|c s IH]; [reflexivity|].
  cbn [JS.toUpperCase JS.trimStart]. rewrite isWhiteSpace_upper.
  now destruct (JS.isWhiteSpace c).
Qed.

Lemma trimEnd_toUpperCase s :
  JS.trimEnd (JS.toUpperCase s) = JS.toUpperCase (JS.trimEnd s).
Proof.
  induction s as [|c s IH]; [reflexivity|].
  cbn [JS.toUpperCase JS.trimEnd]. rewrite IH, isWhiteSpace_upper.
  destruct (JS.trimEnd s); cbn [JS.toUpperCase]; [|reflexivity].
  now destruct (JS.isWhiteSpace c).
Qed.

Lemma trimStart_idempotent s : JS.trimStart (JS.trimStart s) = JS.trimStart s.
Proof.
  induction s as [|c s IH]; [reflexivity|]. cbn [JS.trimStart].
  destruct (JS.isWhiteSpace c) eqn:E; [exact IH|].
  cbn [JS.trimStart]. now rewrite E.
Qed.

Lemma trimEnd_idempotent s : JS.trimEnd (JS.trimEnd s) = JS.trimEnd s.
Proof.
  induction s as [|c s IH]; [reflexivity|]. cbn [JS.trimEnd].
  destruct (JS.trimEnd s) as [|d t] eqn:E.
  - destruct (JS.isWhiteSpace c) eqn:Ec; [reflexivity|].
    cbn [JS.trimEnd]. now rewrite Ec.
  - cbn [JS.trimEnd]. cbn [JS.trimEnd] in IH. now rewrite IH.
Qed.

Lemma trimEnd_trimStart_fixed s :
  JS.trimEnd s = s -> JS.trimEnd (JS.trimStart s) = JS.trimStart s.
Proof.
  induction s as [|c s IH]; [reflexivity|]. intros H.
  cbn [JS.trimStart]. destruct (JS.isWhiteSpace c) eqn:Ec; [|exact H].
  apply IH. cbn [JS.trimEnd] in H. destruct (JS.trimEnd s) as [|d t] eqn:E.
  - rewrite Ec in H. discriminate.
  - now injection H.
Qed.

Lemma trim_idempotent s : JS.trim (JS.trim s) = JS.trim s.
Proof.
  unfold JS.trim.
  rewrite (trimEnd_trimStart_fixed (JS.trimEnd s) (trimEnd_idempotent s)).
  apply trimStart_idempotent.
Qed.

(** X19: normalizing is idempotent, so submitting a code in its trimmed,
    upper-case form has the outcome of submitting the text as typed: the
    two submissions lead to the same mode, error, windows and counter. *)
Theorem X19_normalize_idempotent (input : string) (s : State) (b : Browser) :
  normalize (normalize input) = normalize input
  /\ (inputCode s = input ->
      let s1 := fst (deliver Submit s b) in
      let s2 := fst (deliver Submit (fst (deliver (Change (normalize input)) s b)) b) in
      mode s2 = mode s1 /\ windows s2 = windows s1 /\ zCounter s2 = zCounter s1
      /\ (JS.truthy (errorMsg s) = false -> errorMsg s2 = errorMsg s1)).
Proof.
  assert (Hn : normalize (normalize input) = normalize input).
  { unfold normalize, JS.trim.
    rewrite trimEnd_toUpperCase, trimStart_toUpperCase, toUpperCase_idempotent.
    fold (JS.trim (JS.trimStart (JS.trimEnd input))).
    fold (JS.trim input). now rewrite trim_idempotent. }
  split; [exact Hn|]. intros Hin s1 s2. subst s1 s2.
  rewrite deliver_Change. cbn [fst]. rewrite !deliver_Submit.
  cbn [inputCode mode errorMsg windows zCounter mousePos probability crashTask
       crashVisual]. rewrite Hin, Hn. cbv zeta.
  repeat match goal with |- context [if ?c then _ else _] =>
    destruct c eqn:? end;
    cbn [fst mode windows zCounter errorMsg]; repeat split; congruence.
Qed.

Lemma X19_normalize_idempotent_witness :
  mode (fst (run [Change "A4B4"; Submit] initialState browser0))
  = mode (fst (submitted " a4b4 ")).
Proof.
  destruct (X19_normalize_idempotent " a4b4 "
              (fst (deliver (Change " a4b4 ") initialState browser0)) browser0)
    as [_ H].
  destruct (H eq_refl) as (Hm & _). vm_compute. reflexivity.
Defined.

(** ** The rain of the background *)

Lemma past_threshold_true y k :
  0 <= k < JS.two53 -> past_threshold y k = true -> 100 < y.
Proof.
  unfold past_threshold, JS.two53. intros Hk H. apply Z.ltb_lt in H. lia.
Qed.

Lemma past_threshold_false y k :
  0 <= k < JS.two53 -> past_threshold y k = false -> y < 10100.
Proof.
  unfold past_threshold, JS.two53. intros Hk H. apply Z.ltb_ge in H. lia.
Qed.

Lemma draw_column_spec ind y b :
  let r := fst (draw_column ind y b) in
  In (fst (fst (fst r))) ASCII_CHARS
  /\ snd (fst (fst r)) = Z.of_nat ind * 20
  /\ snd (fst r) = y
  /\ column_step y (snd r).
Proof.
  unfold draw_column. rewrite !bind_unfold. cbn [ret fst snd].
  split; [apply randomItem_In; discriminate|].
  split; [reflexivity|]. split; [reflexivity|].
  match goal with |- context [past_threshold y ?k] =>
    assert (Hk : 0 <= k < JS.two53) by apply Math_random_range;
    destruct (past_threshold y k) eqn:E end.
  - left. split; [reflexivity|]. eapply past_threshold_true; eauto.
  - right. split; [reflexivity|]. eapply past_threshold_false; eauto.
Qed.

Lemma draw_from_spec : forall ypos ind b,
  let r := fst (draw_from ind ypos b) in
  Forall (fun g : Glyph => In (fst (fst g)) ASCII_CHARS) (fst r)
  /\ map (fun g : Glyph => snd (fst g)) (fst r)
     = map (fun i => Z.of_nat i * 20) (seq ind (List.length ypos))
  /\ map (fun g : Glyph => snd g) (fst r) = ypos
  /\ Forall2 column_step ypos (snd r).
Proof.
  induction ypos as [|y ypos IH]; intros ind b; cbn [draw_from].
  - cbn. repeat split; constructor.
  - rewrite !bind_unfold. cbn [ret fst snd].
    destruct (draw_column_spec ind y b) as (Hc & Hx & Hy & Hs).
    destruct (IH (S ind) (snd (draw_column ind y b))) as (Ha & Hxs & Hys & Hss).
    cbv zeta in *. cbn [map List.length seq].
    split; [constructor; assumption|]. split; [now rewrite Hx, Hxs|].
    split; [now rewrite Hy, Hys|]. constructor; assumption.
Qed.

(** X20: one frame of the rain paints one glyph per column, drawn from
    [ASCII_CHARS], at [x = 20 * column] and at the height the column had;
    then each column either falls by 20 or starts over at 0, and it can
    start over only from a height above 100 and must start over once its
    height has reached 10100. *)
Theorem X20_rain_frame (ypos : list Z) (b : Browser) :
  let glyphs := fst (fst (draw ypos b)) in
  let ypos' := snd (fst (draw ypos b)) in
  Forall (fun g : Glyph => In (fst (fst g)) ASCII_CHARS) glyphs
  /\ map (fun g : Glyph => snd (fst g)) glyphs
     = map (fun i => Z.of_nat i * 20) (seq 0 (List.length ypos))
  /\ map (fun g : Glyph => snd g) glyphs = ypos
  /\ List.length ypos' = List.length ypos
  /\ Forall2 (fun y y' => (y' = 0 /\ 100 < y) \/ (y' = y + 20 /\ y < 10100))
             ypos ypos'.
Proof.
  intros glyphs ypos'. subst glyphs ypos'. unfold draw.
  destruct (draw_from_spec ypos 0 b) as (Ha & Hx & Hy & Hs). cbv zeta in *.
  repeat split; try assumption.
  symmetry. eapply Forall2_length. exact Hs.
Qed.

Lemma column_step_rain_ok y y' : rain_ok y -> column_step y y' -> rain_ok y'.
Proof.
  unfold rain_ok, column_step. intros [Hr Hd] [[-> _]|[-> Hlt]].
  - split; [lia|]. apply Z.divide_0_r.
  - destruct Hd as [q ->]. split; [lia|]. exists (q + 1). lia.
Qed.

Lemma Forall2_rain_ok ypos ypos' :
  Forall rain_ok ypos -> Forall2 column_step ypos ypos' -> Forall rain_ok ypos'.
Proof.
  intros Hall H2. induction H2 as [|y y' l l' Hs H2 IH]; [constructor|].
  inversion Hall; subst. constructor; [eapply column_step_rain_ok; eauto|auto].
Qed.

Lemma frames_rain_ok n : forall ypos b,
  Forall rain_ok ypos ->
  Forall rain_ok (fst (frames n ypos b))
  /\ List.length (fst (frames n ypos b)) = List.length ypos.
Proof.
  induction n as [|n IH]; intros ypos b Hall; cbn [frames].
  - auto.
  - rewrite bind_unfold.
    destruct (draw_from_spec ypos 0 b) as (_ & _ & _ & Hs). cbv zeta in Hs.
    fold (draw ypos) in Hs.
    destruct (IH (snd (fst (draw ypos b))) (snd (draw ypos b))) as [H1 H2].
    { eapply Forall2_rain_ok; eauto. }
    split; [exact H1|]. rewrite H2. symmetry. eapply Forall2_length. exact Hs.
Qed.

(** X21: the rain starts with one column per 20 pixels of viewport width,
    all at height 0, and after any number of frames it still has as many
    columns, each at a height that is a multiple of 20 between 0 and
    10120. *)
Theorem X21_rain_stays_in_range (n : nat) (b : Browser) :
  let ypos := fst (bind initial_ypos (frames n) b) in
  List.length ypos = Z.to_nat (innerWidth b / 20)
  /\ Forall (fun y => 0 <= y <= 10120 /\ (20 | y)) ypos.
Proof.
  intros ypos. subst ypos. rewrite bind_unfold.
  unfold initial_ypos at 1 2. rewrite !bind_unfold. cbn [ret fst snd window_innerWidth].
  destruct (frames_rain_ok n (repeat 0 (Z.to_nat (innerWidth b / 20)))
              (snd (initial_ypos b))) as [H1 H2].
  { apply Forall_forall. intros y Hy. apply repeat_spec in Hy. subst y.
    split; [lia|apply Z.divide_0_r]. }
  unfold initial_ypos in H1, H2. rewrite bind_unfold in H1, H2.
  cbn [ret fst snd window_innerWidth] in H1, H2.
  split; [now rewrite H2, repeat_length|exact H1].
Qed.

(** ** Spawned windows and the page as a whole *)

(** X22: in a state where no window is stacked above the counter, the two
    windows that a close spawns below the cap are stacked above every window
    that survives the close, the second above the first; and the window that
    a tick spawns is stacked at least as high as every window already
    there. *)
Theorem X22_spawned_windows_on_top
    (s : State) (b : Browser) (id : string) (x y : Z) :
  z_bounded s ->
  (List.length (windows s) < MAX_WINDOWS)%nat ->
  (exists w1 w2,
     windows (fst (deliver (Close id x y) s b)) = without id (windows s) ++ [w1; w2]
     /\ Types.zIndex w1 < Types.zIndex w2
     /\ Forall (fun w => Types.zIndex w < Types.zIndex w1) (without id (windows s)))
  /\ (mode s = crash ->
      exists w,
        windows (fst (deliver Tick s b)) = windows s ++ [w]
        /\ Forall (fun w0 => Types.zIndex w0 <= Types.zIndex w) (windows s)).
Proof.
  intros Hz Hlt. unfold z_bounded in Hz. split.
  - rewrite deliver_Close. apply Nat.ltb_lt in Hlt. rewrite Hlt. cbv zeta.
    cbn [fst windows]. eexists. eexists. split; [reflexivity|].
    rewrite !createRandomWindow_zIndex. split; [lia|].
    apply Forall_without. eapply Forall_impl; [|exact Hz]. cbv beta.
    intros w Hw. lia.
  - intros Hm. rewrite deliver_Tick, Hm.
    apply Nat.leb_gt in Hlt. rewrite Hlt. cbv zeta. cbn [fst windows].
    eexists. split; [reflexivity|]. rewrite createRandomWindow_zIndex. exact Hz.
Qed.

Lemma X22_spawned_windows_on_top_witness :
  let s := fst (submitted "a1b2") in
  let b := snd (submitted "a1b2") in
  exists w1 w2,
    windows (fst (deliver (Close "8gxwb08" 396 168) s b))
    = without "8gxwb08" (windows s) ++ [w1; w2]
    /\ Types.zIndex w1 < Types.zIndex w2.
Proof.
  intros s b.
  destruct (X22_spawned_windows_on_top s b "8gxwb08" 396 168) as [H _].
  - unfold z_bounded. vm_compute. repeat constructor; discriminate.
  - vm_compute. lia.
  - destruct H as (w1 & w2 & Hws & Hlt & _). exists w1, w2. split; assumption.
Defined.



